(** * pychemqt: heat-exchanger charts and the element data class

    A shallow embedding of

    - [equipment/UI_heatExchanger.py]: the four chart dialogs
      ([Efectividad], [TemperatureEfectividad], [F], [Fi]) and the sweeps
      their [plot] methods run over [Heat_ExchangerDesign];
    - [lib/elemental.py]: the [Elemental] constructor and [_unit];
    - [UI/wizard.py]: the function [auto];
    - the counterflow effectiveness of [equipment/heatExchanger.py], which
      is not among the sources, as the specification writes it out.

    Python floats and numpy floats are read as real numbers: grids are
    built over exact rationals and injected into [R]. *)

From Stdlib Require Import Reals Lra Lia List Ascii String ZArith QArith Qround Qreals Bool.
Import ListNotations.

Set Implicit Arguments.

(** ** Python values, exceptions and the numpy grids *)

Module Py.

Inductive exception : Set :=
  | IndexError
  | TypeError
  | ValueError
  | ZeroDivisionError
  | UnboundLocalError.

(** A call either raises or returns. *)
Definition result (A : Type) : Type := (exception + A)%type.

Definition raise {A : Type} (e : exception) : result A := inl e.
Definition ok {A : Type} (a : A) : result A := inr a.

(** [l[i]] for a non-negative index. *)
Definition getitem {A : Type} (l : list A) (i : nat) : result A :=
  match nth_error l i with
  | Some a => ok a
  | None => raise IndexError
  end.

(** [l[-1]]. *)
Definition getlast {A : Type} (l : list A) : result A :=
  match rev l with
  | a :: _ => ok a
  | [] => raise IndexError
  end.

(** [l[1:]]. *)
Definition slice_from1 {A : Type} (l : list A) : list A := tl l.

(** [numpy.arange(start, stop, step)] for a positive step:
    [ceil((stop - start) / step)] values [start + i * step].  The values are
    the exact ones; numpy holds each rounded to a double, so a grid point
    may differ from its decimal by one rounding ([29 * 0.1] is
    [2.9000000000000004] there). *)
Definition arange (start stop step : Q) : list Q :=
  map (fun i : nat => (start + inject_Z (Z.of_nat i) * step)%Q)
      (seq 0 (Z.to_nat (Qceiling ((stop - start) / step)%Q))).

(** [numpy.linspace(start, stop, num)] (with the end point). *)
Definition linspace (start stop : Q) (num : nat) : list Q :=
  map (fun i : nat =>
         (start + inject_Z (Z.of_nat i)
                  * ((stop - start) / inject_Z (Z.of_nat (num - 1))))%Q)
      (seq 0 num).

(** [numpy.logspace(start, stop, num)]: [10 ** linspace(start, stop, num)]. *)
Definition logspace (start stop : Q) (num : nat) : list R :=
  map (fun y : Q => Rpower 10 (Q2R y)) (linspace start stop num).

End Py.

(** ** equipment/UI_heatExchanger.py *)

Module UI_heatExchanger.
Import Py.

Local Open Scope R_scope.
Local Open Scope string_scope.

(** *** Widgets *)

(** A [QComboBox]: its item texts, the current index ([-1] when there is no
    current item) and its visibility. *)
Record QComboBox : Set := {
  items : list string;
  currentIndex : Z;
  visible : bool
}.

Definition new_QComboBox : QComboBox :=
  {| items := []; currentIndex := (-1)%Z; visible := true |}.

(** [addItem]: the first item added becomes the current one. *)
Definition addItem (c : QComboBox) (text : string) : QComboBox :=
  {| items := items c ++ [text];
     currentIndex := match items c with
                     | [] => 0%Z
                     | _ :: _ => currentIndex c
                     end;
     visible := visible c |}.

(** [setCurrentIndex]: an index out of range clears the selection. *)
Definition setCurrentIndex (c : QComboBox) (i : Z) : QComboBox :=
  {| items := items c;
     currentIndex := if ((0 <=? i)%Z && (i <? Z.of_nat (List.length (items c)))%Z)%bool
                     then i else (-1)%Z;
     visible := visible c |}.

Definition setVisible (c : QComboBox) (b : bool) : QComboBox :=
  {| items := items c; currentIndex := currentIndex c; visible := b |}.

(** [currentText]: the empty string when there is no current item. *)
Definition currentText (c : QComboBox) : string :=
  if (currentIndex c <? 0)%Z then ""
  else nth (Z.to_nat (currentIndex c)) (items c) "".

(** The matplotlib canvas of a dialog: the lines and the annotations drawn on
    [axes2D] since the last [clear]. *)
Record Line2D : Type := {
  xdata : list R;
  ydata : list R;
  fmt : string
}.

Record Annotation : Type := {
  label : string;      (* the format string *)
  value : R;           (* the number formatted into it *)
  xy : R * R;
  rotation : option R
}.

Record mpl : Type := {
  lines : list Line2D;
  texts : list Annotation
}.

(** A call into [Heat_ExchangerDesign]: the two positional numbers, the
    arrangement tag and the [mixed] keyword when it is passed. *)
Record Call : Type := {
  arg1 : R;
  arg2 : R;
  arg_flujo : string;
  arg_mixed : option string
}.

(** The state a [plot] method works on: the dialog's widgets, its canvas, the
    equation image shown, and the calls made so far into
    [Heat_ExchangerDesign]. *)
Record Chart : Type := {
  flow : QComboBox;
  mixed : QComboBox;
  diagrama : mpl;
  image : string;
  calls : list Call
}.

(** *** The monad of a method body: state over [Chart], with exceptions *)

Definition M (A : Type) : Type := Chart -> Chart * result A.

Definition ret {A : Type} (a : A) : M A := fun s => (s, ok a).

Definition bind {A B : Type} (m : M A) (k : A -> M B) : M B :=
  fun s => match m s with
           | (s', inr a) => k a s'
           | (s', inl e) => (s', inl e)
           end.

Definition lift {A : Type} (r : result A) : M A := fun s => (s, r).

Definition get : M Chart := fun s => (s, ok s).

Definition modify (f : Chart -> Chart) : M unit := fun s => (f s, ok tt).

Declare Scope py_scope.
Delimit Scope py_scope with py.
Notation "x <- c1 ;; c2" := (bind c1 (fun x => c2))
  (at level 61, c1 at next level, right associativity) : py_scope.
Notation "c1 ;; c2" := (bind c1 (fun _ => c2))
  (at level 61, right associativity) : py_scope.
Local Open Scope py_scope.

(** [for a in l: body a]. *)
Fixpoint for_ {A : Type} (l : list A) (body : A -> M unit) : M unit :=
  match l with
  | [] => ret tt
  | a :: l' => body a ;; for_ l' body
  end.

(** [[f a for a in l]]. *)
Fixpoint comprehension {A B : Type} (l : list A) (f : A -> M B) : M (list B) :=
  match l with
  | [] => ret []
  | a :: l' => b <- f a ;; bs <- comprehension l' f ;; ret (b :: bs)
  end.

(** Canvas operations. *)
Definition axes2D_clear : M unit :=
  modify (fun s => {| flow := flow s; mixed := mixed s;
                      diagrama := {| lines := []; texts := [] |};
                      image := image s; calls := calls s |}).

Definition diagrama_plot (x y : list R) (f : string) : M unit :=
  modify (fun s => {| flow := flow s; mixed := mixed s;
                      diagrama := {| lines := lines (diagrama s)
                                               ++ [{| xdata := x; ydata := y; fmt := f |}];
                                     texts := texts (diagrama s) |};
                      image := image s; calls := calls s |}).

Definition axes2D_annotate (a : Annotation) : M unit :=
  modify (fun s => {| flow := flow s; mixed := mixed s;
                      diagrama := {| lines := lines (diagrama s);
                                     texts := texts (diagrama s) ++ [a] |};
                      image := image s; calls := calls s |}).

Definition mixed_setVisible (b : bool) : M unit :=
  modify (fun s => {| flow := flow s; mixed := setVisible (mixed s) b;
                      diagrama := diagrama s;
                      image := image s; calls := calls s |}).

Definition image_set_data (path : string) : M unit :=
  modify (fun s => {| flow := flow s; mixed := mixed s;
                      diagrama := diagrama s;
                      image := path; calls := calls s |}).

(** A call into [Heat_ExchangerDesign]: it is recorded, then it returns or
    raises as the callee does. *)
Definition invoke (f : R -> R -> string -> option string -> result R)
           (a b : R) (flujo : string) (kw : option string) : M R :=
  fun s => ({| flow := flow s; mixed := mixed s; diagrama := diagrama s;
               image := image s;
               calls := calls s ++ [{| arg1 := a; arg2 := b;
                                       arg_flujo := flujo; arg_mixed := kw |}] |},
            f a b flujo kw).

(** [kw = {}; if flujo == "CrFSMix": kw["mixed"] = str(self.mixed.currentText())] *)
Definition mixed_kw (flujo : string) : M (option string) :=
  s <- get ;;
  ret (if String.eqb flujo "CrFSMix" then Some (currentText (mixed s)) else None).

(** The state a method leaves, and what it returns. *)
Definition exec {A : Type} (m : M A) (s : Chart) : Chart := fst (m s).
Definition outcome {A : Type} (m : M A) (s : Chart) : result A := snd (m s).

(** The same dialog with more calls recorded, more lines and more texts
    drawn. *)
Definition extend (s : Chart) (cs : list Call) (ls : list Line2D)
           (ts : list Annotation) : Chart :=
  {| flow := flow s; mixed := mixed s;
     diagrama := {| lines := lines (diagrama s) ++ ls;
                    texts := texts (diagrama s) ++ ts |};
     image := image s;
     calls := calls s ++ cs |}.

(** *** The charts

    [Heat_ExchangerDesign] lives in [equipment/heatExchanger.py]; the charts
    only call it.  Its four static methods are the parameters of this
    section: each takes two numbers, the arrangement tag and the optional
    [mixed] keyword, and returns a number or raises. *)

Section Charts.

Variable efectividad : R -> R -> string -> option string -> result R.
Variable TemperatureEffectiveness : R -> R -> string -> option string -> result R.
Variable CorrectionFactor : R -> R -> string -> option string -> result R.
Variable Fi_ : R -> R -> string -> option string -> result R.

(** **** class Efectividad *)

Definition Efectividad_flujo : list (string * string) :=
  [ ("Counterflow", "CF");
    ("Parallelflow", "PF");
    ("Crossflow, both fluids unmixed", "CrFunMix");
    ("Crossflow, one fluid mixed, other unmixed", "CrFSMix");
    ("Crossflow, both fluids mixed", "CrFMix");
    ("1-2 pass shell and tube exchanger", "1-2TEMAE") ].

Definition Efectividad_mezclado : list string := ["Cmin"; "Cmax"].

(** [C=[0, 0.2, 0.4, 0.6, 0.8, 1.]] *)
Definition Efectividad_C : list R := [0; 0.2; 0.4; 0.6; 0.8; 1].

(** [NTU=arange(0, 6.1, 0.1)] *)
Definition Efectividad_NTU : list R := map Q2R (arange 0 6.1 0.1).

(** The annotation angle:
    [try: angle=arctan(fracciony/fraccionx)*360/2/pi]
    [except ZeroDivisionError: angle=90]. *)
Definition Efectividad_angle (fraccionx fracciony : R) : R :=
  if Req_dec_T fraccionx 0 then 90
  else atan (fracciony / fraccionx) * 360 / 2 / PI.

(** The body of [for ci in C:]. *)
Definition Efectividad_curve (flujo : string) (kw : option string) (ci : R) : M unit :=
  let NTU := Efectividad_NTU in
  tail <- comprehension (slice_from1 NTU)
            (fun N => invoke efectividad N ci flujo kw) ;;
  let e := 0 :: tail in
  diagrama_plot NTU e "k" ;;
  ntu40 <- lift (getitem NTU 40) ;;
  ntu30 <- lift (getitem NTU 30) ;;
  e40 <- lift (getitem e 40) ;;
  e30 <- lift (getitem e 30) ;;
  let fraccionx := (ntu40 - ntu30) / 6 in
  let fracciony := e40 - e30 in
  let angle := Efectividad_angle fraccionx fracciony in
  ntu29 <- lift (getitem NTU 29) ;;
  axes2D_annotate {| label := "C*=%0.1f"; value := ci;
                     xy := (ntu29, e30); rotation := Some angle |}.

(** [Efectividad.plot(self, indice)] *)
Definition Efectividad_plot (indice : nat) : M unit :=
  axes2D_clear ;;
  tag <- lift (getitem Efectividad_flujo indice) ;;
  let flujo := snd tag in
  mixed_setVisible (String.eqb flujo "CrFSMix") ;;
  kw <- mixed_kw flujo ;;
  for_ Efectividad_C (Efectividad_curve flujo kw) ;;
  image_set_data ("images/equation/" ++ flujo ++ ".png").

(** **** class TemperatureEfectividad *)

Definition TemperatureEfectividad_flujo : list (string * string) :=
  [ ("Counterflow", "CF");
    ("Parallelflow", "PF");
    ("Crossflow, both fluids unmixed", "CrFunMix");
    ("Crossflow, one fluid mixed, other unmixed", "CrFSMix");
    ("Crossflow, both fluids mixed", "CrFMix");
    ("1-2 TEMA E", "1-2TEMAE");
    ("1-2 TEMA E, shell fluid divided", "1-2TEMAE2");
    ("1-3 TEMA E", "1-3TEMAE");
    ("1-4 TEMA E", "1-4TEMAE");
    ("1-1 TEMA G", "1-1TEMAG");
    ("1-2 TEMA G", "1-2TEMAG");
    ("1-1 TEMA H", "1-1TEMAH");
    ("1-2 TEMA H", "1-2TEMAH");
    ("1-1 TEMA J", "1-1TEMAJ");
    ("1-2 TEMA J", "1-2TEMAJ");
    ("1-4 TEMA J", "1-4TEMAJ") ].

Definition TemperatureEfectividad_mezclado : list string := ["1"; "2"].

Definition TemperatureEfectividad_R : list R :=
  [0.2; 0.3; 0.4; 0.5; 0.6; 0.7; 0.8; 0.9; 1; 1.2; 1.4; 1.6; 1.8; 2; 2.5;
   3; 4; 6; 8; 10; 15].

(** [NTU=logspace(-1.5, 1, 100)] *)
Definition TemperatureEfectividad_NTU : list R := logspace (-1.5) 1 100.

(** The body of [for ri in R:]. *)
Definition TemperatureEfectividad_curve
           (flujo : string) (kwargs : option string) (ri : R) : M unit :=
  let NTU := TemperatureEfectividad_NTU in
  tail <- comprehension (slice_from1 NTU)
            (fun N => invoke TemperatureEffectiveness N ri flujo kwargs) ;;
  let e := 0 :: tail in
  diagrama_plot NTU e "k" ;;
  ntu_last <- lift (getlast NTU) ;;
  e_last <- lift (getlast e) ;;
  axes2D_annotate {| label := " R=%0.1f"; value := ri;
                     xy := (ntu_last, e_last); rotation := None |}.

(** [TemperatureEfectividad.plot(self, indice)] *)
Definition TemperatureEfectividad_plot (indice : nat) : M unit :=
  axes2D_clear ;;
  tag <- lift (getitem TemperatureEfectividad_flujo indice) ;;
  let flujo := snd tag in
  mixed_setVisible (String.eqb flujo "CrFSMix") ;;
  kwargs <- mixed_kw flujo ;;
  for_ TemperatureEfectividad_R (TemperatureEfectividad_curve flujo kwargs) ;;
  s <- get ;;
  if (String.eqb flujo "CrFSMix" && negb (currentIndex (mixed s) =? 0)%Z)%bool
  then image_set_data ("images/equation/" ++ flujo ++ "2.png")
  else image_set_data ("images/equation/" ++ flujo ++ ".png").

(** **** class F *)

Definition F_flujo : list (string * string) :=
  [ ("Crossflow, both fluids unmixed", "CrFunMix");
    ("Crossflow, one fluid mixed, other unmixed", "CrFSMix");
    ("Crossflow, both fluids mixed", "CrFMix");
    ("1-2 pass shell and tube exchanger", "1-2TEMAE") ].

Definition F_mezclado : list string := ["Cmin"; "Cmax"].

Definition F_R : list R :=
  [0.1; 0.2; 0.3; 0.4; 0.5; 0.6; 0.7; 0.8; 0.9; 1; 1.2; 1.4; 1.6; 1.8; 2;
   2.5; 3; 4; 6; 8; 10; 15; 20].

(** [P=arange(0, 1.01, 0.01)] *)
Definition F_P : list R := map Q2R (arange 0 1.01 0.01).

Definition F_curve (flujo : string) (kwargs : option string) (ri : R) : M unit :=
  f <- comprehension F_P (fun p => invoke CorrectionFactor p ri flujo kwargs) ;;
  diagrama_plot F_P f "k".

(** [F.plot(self, indice)] *)
Definition F_plot (indice : nat) : M unit :=
  axes2D_clear ;;
  tag <- lift (getitem F_flujo indice) ;;
  let flujo := snd tag in
  kwargs <- mixed_kw flujo ;;
  for_ F_R (F_curve flujo kwargs) ;;
  image_set_data ("images/equation/" ++ flujo ++ ".png").

(** **** class Fi *)

Definition Fi_flujo : list (string * string) :=
  [ ("1-2 pass shell and tube exchanger", "1-2TEMAE") ].

Definition Fi_mezclado : list string := ["Cmin"; "Cmax"].

Definition Fi_R : list R :=
  [0; 0.1; 0.2; 0.3; 0.4; 0.5; 0.6; 0.7; 0.8; 0.9; 1; 1.2; 1.4; 1.6; 1.8; 2;
   2.5; 3; 4; 6; 8; 10].

Definition Fi_P : list R := map Q2R (arange 0 1.01 0.01).

Definition Fi_NTU : list R := [0.2; 0.4; 0.6; 0.8; 1; 1.2; 1.4; 1.6; 1.8; 2.0; 2.5; 3].

Definition Fi_curve (flujo : string) (kwargs : option string) (ri : R) : M unit :=
  f <- comprehension Fi_P (fun p => invoke Fi_ p ri flujo kwargs) ;;
  diagrama_plot Fi_P f "k".

(** [Fi.plot(self, indice)] *)
Definition Fi_plot (indice : nat) : M unit :=
  axes2D_clear ;;
  tag <- lift (getitem Fi_flujo indice) ;;
  let flujo := snd tag in
  kwargs <- mixed_kw flujo ;;
  for_ Fi_R (Fi_curve flujo kwargs) ;;
  for_ Fi_NTU (fun ntu => diagrama_plot [0; 1] [0; 1 / ntu] "k") ;;
  image_set_data ("images/equation/" ++ flujo ++ ".png").

(** **** The widgets as [__init__] fills them

    Each constructor fills the [flow] combo box with the arrangement texts
    and the [mixed] combo box with the class's [mezclado]; [new_Chart] is
    the dialog at that point, before the constructor's closing
    [self.plot(0)], which [plot] below accounts for. *)
Definition new_Chart (flujo : list (string * string)) (mezclado : list string) : Chart :=
  {| flow := fold_left addItem (map fst flujo) new_QComboBox;
     mixed := fold_left addItem mezclado new_QComboBox;
     diagrama := {| lines := []; texts := [] |};
     image := "";
     calls := [] |}.

(** A user picking entry [i] of the [mixed] combo box. *)
Definition select_mixed (i : Z) (s : Chart) : Chart :=
  {| flow := flow s; mixed := setCurrentIndex (mixed s) i;
     diagrama := diagrama s; image := image s; calls := calls s |}.

Definition select_flow (i : Z) (s : Chart) : Chart :=
  {| flow := setCurrentIndex (flow s) i; mixed := mixed s;
     diagrama := diagrama s; image := image s; calls := calls s |}.

End Charts.

(** *** What a sweep draws and calls

    The curve, the annotation and the calls of one pass through a chart's
    loop when the callee returns [g a b flujo kw] on every call; they state
    the results about [plot] below. *)

Definition total (g : R -> R -> string -> option string -> R) :
  R -> R -> string -> option string -> result R :=
  fun a b flujo kw => ok (g a b flujo kw).

Definition mkcall (b : R) (flujo : string) (kw : option string) (a : R) : Call :=
  {| arg1 := a; arg2 := b; arg_flujo := flujo; arg_mixed := kw |}.

(** The [mixed] keyword a chart passes for arrangement [flujo]. *)
Definition kw_of (s : Chart) (flujo : string) : option string :=
  if String.eqb flujo "CrFSMix" then Some (currentText (mixed s)) else None.

Definition sweep_line (NTU : list R) (g : R -> R -> string -> option string -> R)
           (flujo : string) (kw : option string) (b : R) : Line2D :=
  {| xdata := NTU;
     ydata := 0 :: map (fun N => g N b flujo kw) (tl NTU);
     fmt := "k" |}.

Definition sweep_calls (NTU : list R) (flujo : string) (kw : option string)
           (bs : list R) : list Call :=
  flat_map (fun b => map (mkcall b flujo kw) (tl NTU)) bs.

Definition TemperatureEfectividad_note
           (g : R -> R -> string -> option string -> R)
           (flujo : string) (kw : option string) (ri : R) : Annotation :=
  {| label := " R=%0.1f"; value := ri;
     xy := (last TemperatureEfectividad_NTU 0,
            last (ydata (sweep_line TemperatureEfectividad_NTU g flujo kw ri)) 0);
     rotation := None |}.

Definition Efectividad_note
           (g : R -> R -> string -> option string -> R)
           (flujo : string) (kw : option string) (ci : R) : Annotation :=
  let NTU := Efectividad_NTU in
  let e := ydata (sweep_line NTU g flujo kw ci) in
  {| label := "C*=%0.1f"; value := ci;
     xy := (nth 29 NTU 0, nth 30 e 0);
     rotation := Some (Efectividad_angle ((nth 40 NTU 0 - nth 30 NTU 0) / 6)
                                         (nth 40 e 0 - nth 30 e 0)) |}.

(** The dialog when the sweep of [plot] starts: the canvas cleared and the
    [mixed] selector shown for "CrFSMix" only. *)
Definition prepared (s : Chart) (flujo : string) : Chart :=
  {| flow := flow s;
     mixed := setVisible (mixed s) (String.eqb flujo "CrFSMix");
     diagrama := {| lines := []; texts := [] |};
     image := image s; calls := calls s |}.

(** A curve over the grid [NTU] whose first point is [(x0, 0)]. *)
Definition starts_at (x0 : R) (NTU : list R) (ln : Line2D) : Prop :=
  xdata ln = NTU /\ hd_error (xdata ln) = Some x0 /\ hd_error (ydata ln) = Some 0.

(** A dialog whose [mixed] selector holds the entries [mezclado], one of
    them current: what [__init__] builds and a user's choice keeps. *)
Definition selected (mezclado : list string) (s : Chart) : Prop :=
  items (mixed s) = mezclado
  /\ (0 <= currentIndex (mixed s) < Z.of_nat (List.length mezclado))%Z.

(** A callee that returns 0 on every call. *)
Definition zero_callee : R -> R -> string -> option string -> result R :=
  total (fun _ _ _ _ => 0).

(** The call is for the arrangement [flujo] and carries the [mixed] keyword
    exactly when [flujo] is "CrFSMix", then with the current text of the
    [mixed] selector of the dialog [s]. *)
Definition current_mixed (s : Chart) (flujo : string) (c : Call) : Prop :=
  arg_flujo c = flujo
  /\ (flujo = "CrFSMix" -> arg_mixed c = Some (currentText (mixed s)))
  /\ (flujo <> "CrFSMix" -> arg_mixed c = None).

(** The [mixed] keyword is passed exactly for the arrangement "CrFSMix",
    with a value among [allowed]. *)
Definition mixed_contract (allowed : list string) (c : Call) : Prop :=
  match arg_mixed c with
  | Some m => arg_flujo c = "CrFSMix" /\ In m allowed
  | None => arg_flujo c <> "CrFSMix"
  end.

End UI_heatExchanger.

(** ** lib/elemental.py *)

Module elemental.
Import Py.

Local Open Scope string_scope.

(** A value sqlite3 hands back for a column: [None], an [int], a [float]
    or a [str]. *)
Inductive cell : Type :=
  | Null
  | Int (z : Z)
  | Float (r : R)
  | Text (s : string).

(** A row of the table [ELEMENTS], as [fetchone] returns it. *)
Definition row : Type := list cell.

(** [class float(float): code = ""]: a number and its [code] attribute. *)
Record float : Type := {
  number : R;
  code : string
}.

(** [str.split(sep)] for a one-character separator. *)
Fixpoint split (sep : Ascii.ascii) (s : string) : list string :=
  match s with
  | EmptyString => [""]
  | String c s' =>
    if Ascii.eqb c sep then "" :: split sep s'
    else match split sep s' with
         | h :: t => String c h :: t
         | [] => [String c ""]
         end
  end.

(** [s[-1]] *)
Fixpoint last_char (s : string) : option Ascii.ascii :=
  match s with
  | EmptyString => None
  | String c EmptyString => Some c
  | String _ s' => last_char s'
  end.

(** The constructor's clamp: [if id > 118: id = 118]. *)
Definition clamp (id : Z) : Z := if (id >? 118)%Z then 118%Z else id.

Section Elemental.

(** The table [ELEMENTS] of [dat/elemental.db]; its first column is [id],
    the one the constructor reads back as [data[0]]. *)
Variable ELEMENTS : list row.

(** Python's reading of a text as a number, and [eval] on a cell. *)
Variable parse_float : string -> option R.
Variable parse_int : string -> option Z.
Variable pyobj : Type.
Variable eval : cell -> result pyobj.

(** [WHERE id=='%i' % id] on a row: the [id] column holds that integer. *)
Definition id_is (id : Z) (r : row) : bool :=
  match r with
  | Int z :: _ => (z =? id)%Z
  | _ => false
  end.

(** [databank.execute("SELECT * FROM ELEMENTS WHERE id=='%i'" % id)]
    followed by [databank.fetchone()]: the first matching row, or [None]. *)
Definition fetchone (id : Z) : option row := find (id_is id) ELEMENTS.

(** [data[i]]; [data] is [None] when no row matched. *)
Definition column (data : option row) (i : nat) : result cell :=
  match data with
  | None => raise TypeError
  | Some r => getitem r i
  end.

(** [int(x)] *)
Definition py_int (c : cell) : result Z :=
  match c with
  | Null => raise TypeError
  | Int z => ok z
  | Float r => ok (if Rle_dec 0 r then Int_part r else (- Int_part (- r))%Z)
  | Text s => match parse_int s with
              | Some z => ok z
              | None => raise ValueError
              end
  end.

(** [float(x)] *)
Definition py_float (c : cell) : result float :=
  match c with
  | Null => raise TypeError
  | Int z => ok {| number := IZR z; code := "" |}
  | Float r => ok {| number := r; code := "" |}
  | Text s => match parse_float s with
              | Some r => ok {| number := r; code := "" |}
              | None => raise ValueError
              end
  end.

(** [not x] on a cell *)
Definition falsy (c : cell) : bool :=
  match c with
  | Null => true
  | Int z => (z =? 0)%Z
  | Float r => if Req_dec_T r 0 then true else false
  | Text s => String.eqb s ""
  end.

(** [Elemental._unit(self, str)]: the number in the cell; [None] for an
    empty cell; for a text ending in ")" the number between its first "("
    and the next ",", coded "stimated". *)
Definition _unit (str : cell) : result (option float) :=
  match py_float str with
  | inr value => ok (Some value)
  | inl _ =>
    if falsy str then ok None
    else match str with
         | Text s =>
           if match last_char s with
              | Some c => Ascii.eqb c ")"%char
              | None => false
              end
           then
             match split "("%char s with
             | _ :: inner :: _ =>
               match split ","%char inner with
               | first :: _ =>
                 match py_float (Text first) with
                 | inr value =>
                   ok (Some {| number := number value; code := "stimated" |})
                 | inl e => raise e
                 end
               | [] => raise IndexError
               end
             | _ => raise IndexError
             end
           else raise UnboundLocalError
         | _ => raise TypeError
         end
  end.

(** [not x] on what [_unit] returned. *)
Definition unit_falsy (v : option float) : bool :=
  match v with
  | None => true
  | Some f => if Req_dec_T (number f) 0 then true else false
  end.

(** The phase at 273.15 K. *)
Definition phase_of (Tf Tb : option float) : string :=
  if (unit_falsy Tf || unit_falsy Tb)%bool then ""
  else match Tf, Tb with
       | Some tf, Some tb =>
         if Rlt_dec 273.15 (number tf) then "Solid"
         else if Rlt_dec (number tb) 273.15 then "Gas"
         else "Liquid"
       | _, _ => ""
       end.

(** The attributes of an [Elemental] instance. *)
Record Elemental : Type := {
  id : Z;
  name : cell;
  altname : cell;
  symbol : cell;
  serie : cell;
  group : Z;
  period : Z;
  block : cell;
  density_Solid : option float;
  density_Liq : option float;
  density_Gas : option float;
  appearance : cell;
  date : cell;
  country : cell;
  discover : cell;
  etymology : cell;
  atomic_mass : option float;
  atomic_volume : option float;
  atomic_radius : option float;
  covalent_radius : option float;
  vanderWaals_radius : option float;
  ionic_radii : cell;
  lattice_type : cell;
  space_group : cell;
  lattice_edges : pyobj;
  lattice_angles : pyobj;
  electron_configuration : cell;
  oxidation : cell;
  electronegativity : option float;
  electron_affinity : option float;
  first_ionization : option float;
  Tf : option float;
  Tb : option float;
  phase : string;
  Heat_f : option float;
  Heat_b : option float;
  Cp : option float;
  k : option float;
  T_debye : option float;
  color : cell;
  notes : cell
}.

Definition rbind {A B : Type} (r : result A) (f : A -> result B) : result B :=
  match r with
  | inl e => inl e
  | inr a => f a
  end.

Notation "x <-- c1 ;;; c2" := (rbind c1 (fun x => c2))
  (at level 61, c1 at next level, right associativity).

(** The attribute assignments of [__init__], in order, on the fetched
    row. *)
Definition build (data : option row) : result Elemental :=
  let col := column data in
  let unit_ i := (c <-- col i ;;; _unit c) in
  v0 <-- (c <-- col 0%nat ;;; py_int c) ;;;
  v1 <-- col 1%nat ;;;
  v2 <-- col 2%nat ;;;
  v3 <-- col 3%nat ;;;
  v4 <-- col 4%nat ;;;
  v5 <-- (c <-- col 5%nat ;;; py_int c) ;;;
  v6 <-- (c <-- col 6%nat ;;; py_int c) ;;;
  v7 <-- col 7%nat ;;;
  v8 <-- unit_ 8%nat ;;;
  v9 <-- unit_ 9%nat ;;;
  v10 <-- unit_ 10%nat ;;;
  v11 <-- col 11%nat ;;;
  v12 <-- col 12%nat ;;;
  v13 <-- col 13%nat ;;;
  v14 <-- col 14%nat ;;;
  v15 <-- col 15%nat ;;;
  v16 <-- unit_ 16%nat ;;;
  v17 <-- unit_ 17%nat ;;;
  v18 <-- unit_ 18%nat ;;;
  v19 <-- unit_ 19%nat ;;;
  v20 <-- unit_ 20%nat ;;;
  v21 <-- col 21%nat ;;;
  v22 <-- col 22%nat ;;;
  v23 <-- col 23%nat ;;;
  v24 <-- (c <-- col 24%nat ;;; eval c) ;;;
  v25 <-- (c <-- col 25%nat ;;; eval c) ;;;
  v26 <-- col 26%nat ;;;
  v27 <-- col 27%nat ;;;
  v28 <-- unit_ 28%nat ;;;
  v29 <-- unit_ 29%nat ;;;
  v30 <-- unit_ 30%nat ;;;
  v31 <-- unit_ 31%nat ;;;
  v32 <-- unit_ 32%nat ;;;
  v33 <-- unit_ 33%nat ;;;
  v34 <-- unit_ 34%nat ;;;
  v35 <-- unit_ 35%nat ;;;
  v36 <-- unit_ 36%nat ;;;
  v37 <-- unit_ 37%nat ;;;
  v38 <-- col 38%nat ;;;
  v39 <-- col 39%nat ;;;
  ok {| id := v0; name := v1; altname := v2; symbol := v3; serie := v4;
        group := v5; period := v6; block := v7;
        density_Solid := v8; density_Liq := v9; density_Gas := v10;
        appearance := v11; date := v12; country := v13; discover := v14;
        etymology := v15;
        atomic_mass := v16; atomic_volume := v17; atomic_radius := v18;
        covalent_radius := v19; vanderWaals_radius := v20;
        ionic_radii := v21; lattice_type := v22; space_group := v23;
        lattice_edges := v24; lattice_angles := v25;
        electron_configuration := v26; oxidation := v27;
        electronegativity := v28; electron_affinity := v29;
        first_ionization := v30; Tf := v31; Tb := v32;
        phase := phase_of v31 v32;
        Heat_f := v33; Heat_b := v34; Cp := v35; k := v36; T_debye := v37;
        color := v38; notes := v39 |}.

(** [Elemental.__init__(self, id)]: the instance, or the exception
    raised. *)
Definition __init__ (id : Z) : result Elemental :=
  let id := clamp id in
  let data := fetchone id in
  build data.

End Elemental.

(** A table with one row, for element 118, most of its cells empty, to run
    the constructor on. *)
Definition sample_row : row :=
  [ Int 118; Text "Oganesson"; Text "Ununoctium"; Text "Og"; Text "Noble gas";
    Int 18; Int 7; Text "P"; Null; Null; Float 13.65; Null; Text "2002";
    Text "Russia"; Null; Null; Int 294; Null; Null; Text "(157, stimated)";
    Null; Null; Null; Null; Text "[]"; Text "[]"; Text "[Rn] 5f14 6d10 7s2 7p6";
    Null; Null; Null; Null; Null; Null; Null; Null; Null; Null; Null;
    Text "Colorless"; Null ].

Definition sample_ELEMENTS : list row := [sample_row].

(** A reading of numbers that knows the one text the sample needs. *)
Definition sample_parse_float (s : string) : option R :=
  if String.eqb s "157" then Some 157%R else None.

Definition sample_parse_int (s : string) : option Z := None.

Definition sample_eval (c : cell) : result cell := ok c.

End elemental.

(** ** The charts as a family, and the states they end in *)

Module ChartStates.
Import Py UI_heatExchanger.

Local Open Scope R_scope.
Local Open Scope string_scope.

(** The dialog after [self.image.set_data(img)]. *)
Definition set_image (path : string) (s : Chart) : Chart :=
  {| flow := flow s; mixed := mixed s; diagrama := diagrama s;
     image := path; calls := calls s |}.

(** The dialog after [self.diagrama.axes2D.clear()]. *)
Definition cleared (s : Chart) : Chart :=
  {| flow := flow s; mixed := mixed s;
     diagrama := {| lines := []; texts := [] |};
     image := image s; calls := calls s |}.

(** A curve of [F] or [Fi]: the callee's values over the whole grid. *)
Definition plain_line (P : list R) (g : R -> R -> string -> option string -> R)
           (flujo : string) (kw : option string) (b : R) : Line2D :=
  {| xdata := P; ydata := map (fun p => g p b flujo kw) P; fmt := "k" |}.

(** The calls of a sweep over the whole grid [P], for each [b] in turn. *)
Definition grid_calls (P : list R) (flujo : string) (kw : option string)
           (bs : list R) : list Call :=
  flat_map (fun b => map (mkcall b flujo kw) P) bs.

(** A dotted ray of the [Fi] chart: [plot([0, 1], [0, 1./ntu], "k")]. *)
Definition Fi_ray (ntu : R) : Line2D :=
  {| xdata := [0; 1]; ydata := [0; 1 / ntu]; fmt := "k" |}.

(** [chart=(Efectividad, TemperatureEfectividad, F, Fi)] *)
Inductive chart : Set :=
  | Efectividad
  | TemperatureEfectividad
  | F
  | Fi.

Definition flujo_of (c : chart) : list (string * string) :=
  match c with
  | Efectividad => Efectividad_flujo
  | TemperatureEfectividad => TemperatureEfectividad_flujo
  | F => F_flujo
  | Fi => Fi_flujo
  end.

Definition mezclado_of (c : chart) : list string :=
  match c with
  | Efectividad => Efectividad_mezclado
  | TemperatureEfectividad => TemperatureEfectividad_mezclado
  | F => F_mezclado
  | Fi => Fi_mezclado
  end.

(** The [plot] method of each class, over the static method it calls. *)
Definition plot_of (c : chart)
           (callee : R -> R -> string -> option string -> result R)
           (indice : nat) : M unit :=
  match c with
  | Efectividad => Efectividad_plot callee indice
  | TemperatureEfectividad => TemperatureEfectividad_plot callee indice
  | F => F_plot callee indice
  | Fi => Fi_plot callee indice
  end.

(** The annotation of the effectiveness curve for [ci]: anchored at
    [(NTU[29], e[30])], where [e[30]] is the callee's value at
    [NTU[30] = 3.0], and rotated by the slope between [NTU[30] = 3.0] and
    [NTU[40] = 4.0], [fraccionx] being [1/6]. *)
Definition Efectividad_label
           (g : R -> R -> string -> option string -> R)
           (flujo : string) (kw : option string) (ci : R) : Annotation :=
  {| label := "C*=%0.1f"; value := ci;
     xy := (nth 29 Efectividad_NTU 0, g 3 ci flujo kw);
     rotation := Some (atan ((g 4 ci flujo kw - g 3 ci flujo kw) / (1 / 6))
                       * 360 / 2 / PI) |}.

(** The equation image did not change. *)
Definition same_image (s s' : Chart) : Prop := image s' = image s.

(** A method that, when it raises, leaves the equation image as it was. *)
Definition image_on_success {A : Type} (m : M A) : Prop :=
  forall s e, outcome m s = inl e -> image (exec m s) = image s.

(** A callee that raises on every call. *)
Definition failing_callee : R -> R -> string -> option string -> result R :=
  fun _ _ _ _ => raise ZeroDivisionError.

End ChartStates.

(** ** UI/wizard.py: [auto] *)

Module wizard.

Local Open Scope list_scope.
Local Open Scope string_scope.

(** The exceptions of [configparser] and of [os.environ]. *)
Inductive error : Set :=
  | KeyError (key : string)
  | NoSectionError (section : string)
  | NoOptionError (name section : string)
  | DuplicateSectionError (section : string)
  | ValueError.

Definition result (A : Type) : Type := (error + A)%type.

Definition rbind {A B : Type} (r : result A) (f : A -> result B) : result B :=
  match r with
  | inl e => inl e
  | inr a => f a
  end.

Notation "x <-- c1 ;;; c2" := (rbind c1 (fun x => c2))
  (at level 61, c1 at next level, right associativity).

(** [str.lower()] on ASCII letters: [ConfigParser.optionxform]. *)
Definition lower_ascii (c : ascii) : ascii :=
  let n := nat_of_ascii c in
  if ((65 <=? n) && (n <=? 90))%nat then ascii_of_nat (n + 32) else c.

Fixpoint optionxform (s : string) : string :=
  match s with
  | EmptyString => EmptyString
  | String c s' => String (lower_ascii c) (optionxform s')
  end.

(** A section: its options in insertion order. *)
Definition options : Set := list (string * string).

(** A [ConfigParser]: the sections in insertion order (the [DEFAULT]
    section apart, which none of this code names). *)
Definition ConfigParser : Set := list (string * options).

Fixpoint lookup {V : Set} (key : string) (l : list (string * V)) : option V :=
  match l with
  | [] => None
  | (k, v) :: l' => if String.eqb k key then Some v else lookup key l'
  end.

(** [d[key] = v] on an ordered dict: an existing key keeps its place. *)
Fixpoint assign {V : Set} (key : string) (v : V) (l : list (string * V))
  : list (string * V) :=
  match l with
  | [] => [(key, v)]
  | (k, w) :: l' =>
    if String.eqb k key then (k, v) :: l' else (k, w) :: assign key v l'
  end.

Definition has_section (config : ConfigParser) (section : string) : bool :=
  match lookup section config with
  | Some _ => true
  | None => false
  end.

(** [config.set(section, name, "True")]: the option is stored under its
    lower-cased name; a missing section raises. *)
Definition set_True (config : ConfigParser) (section name : string)
  : result ConfigParser :=
  match lookup section config with
  | Some opts => inr (assign section (assign (optionxform name) "True" opts) config)
  | None => inl (NoSectionError section)
  end.

(** The value stored in a section under a key, if any. *)
Definition stored (config : ConfigParser) (section key : string)
  : option string :=
  match lookup section config with
  | Some opts => lookup key opts
  | None => None
  end.

Section Auto.

(** [UI_confThermo.UI_confThermo_widget.default(ConfigParser())] *)
Variable default_config : ConfigParser.
(** [gerg.id_GERG], [refProp.__all__], [mEoS.id_mEoS], [coolProp.__all__] *)
Variable id_GERG : list Z.
Variable refProp_all : list Z.
Variable id_mEoS : list Z.
Variable coolProp_all : list Z.
(** [os.environ] *)
Variable environ : string -> option string.

(** [id in l] *)
Definition contains (l : list Z) (id : Z) : bool := existsb (Z.eqb id) l.

(** [os.environ[key]] *)
Definition environ_get (key : string) : result string :=
  match environ key with
  | Some v => inr v
  | None => inl (KeyError key)
  end.

(** The loop over [components]: the two availability flags. *)
Definition availability (components : list Z) : bool * bool :=
  fold_left
    (fun (flags : bool * bool) (id : Z) =>
       let GERG_available :=
           if negb (contains id_GERG id) then false else fst flags in
       let REFPROP_available :=
           if negb (contains refProp_all id) then false else snd flags in
       (GERG_available, REFPROP_available))
    components (true, true).

(** [len(components) == 1 and p(components[0])] *)
Definition single (p : Z -> bool) (components : list Z) : bool :=
  match components with
  | [id] => p id
  | _ => false
  end.

(** [auto(tmin, tmax, pmin, pmax, components)] *)
Definition auto (tmin tmax pmin pmax : option R) (components : list Z)
  : result ConfigParser :=
  let config := default_config in
  let (GERG_available, REFPROP_available) := availability components in
  config <--
    (if single (Z.eqb 62) components then
       config <-- set_True config "Thermo" "iapws" ;;;
       freesteam <-- environ_get "freesteam" ;;;
       if String.eqb freesteam "True"
       then set_True config "Thermo" "freesteam"
       else inr config
     else inr config) ;;;
  config <--
    (if single (contains id_mEoS) components
     then set_True config "Thermo" "MEoS"
     else inr config) ;;;
  CoolProp <-- environ_get "CoolProp" ;;;
  config <--
    (if (String.eqb CoolProp "True" && single (contains coolProp_all) components)%bool
     then set_True config "Thermo" "coolprop"
     else inr config) ;;;
  refprop <-- environ_get "refprop" ;;;
  config <--
    (if (String.eqb refprop "True" && REFPROP_available)%bool
     then set_True config "Thermo" "refprop"
     else inr config) ;;;
  config <--
    (if GERG_available
     then set_True config "Thermo" "GERG"
     else inr config) ;;;
  inr config.

(** The options [auto] turns on for [components], in the order it sets
    them, each named as [auto] names it. *)
Definition env_is_True (key : string) : bool :=
  match environ key with
  | Some v => String.eqb v "True"
  | None => false
  end.

Definition chosen (components : list Z) : list string :=
  (if single (Z.eqb 62) components
   then "iapws" :: (if env_is_True "freesteam" then ["freesteam"] else [])
   else [])
  ++ (if single (contains id_mEoS) components then ["MEoS"] else [])
  ++ (if (env_is_True "CoolProp" && single (contains coolProp_all) components)%bool
      then ["coolprop"] else [])
  ++ (if (env_is_True "refprop" && forallb (contains refProp_all) components)%bool
      then ["refprop"] else [])
  ++ (if forallb (contains id_GERG) components then ["GERG"] else []).

End Auto.

(** [config.set(section, name, "True")] for each [name] in turn. *)
Fixpoint set_all (section : string) (names : list string) (config : ConfigParser)
  : result ConfigParser :=
  match names with
  | [] => inr config
  | name :: rest =>
    config' <-- set_True config section name ;;; set_all section rest config'
  end.

(** A project setting to run [auto] on: a default configuration with a
    [Thermo] section, three GERG components, water (62) known to every
    library, and an environment with the three switches off. *)
Definition sample_default : ConfigParser :=
  [("Thermo", [("iapws", "False"); ("gerg", "False")]); ("Transport", [])].

Definition sample_environ (key : string) : option string :=
  if String.eqb key "CoolProp" then Some "False"
  else if String.eqb key "refprop" then Some "False"
  else if String.eqb key "freesteam" then Some "False"
  else None.

Definition sample_ids : list Z := [2%Z; 4%Z; 62%Z].

Definition sample_auto (components : list Z) : result ConfigParser :=
  auto sample_default sample_ids sample_ids sample_ids sample_ids sample_environ
       None None None None components.

(** An environment without [CoolProp]. *)
Definition bare_environ (key : string) : option string :=
  if String.eqb key "refprop" then Some "False" else None.

(** What [auto] returns for water alone in that setting. *)
Definition sample_config : ConfigParser :=
  [("Thermo", [("iapws", "True"); ("gerg", "True"); ("meos", "True")]);
   ("Transport", [])].

(** The options [auto] can turn on, as [ConfigParser] stores them. *)
Definition auto_keys : list string :=
  ["iapws"; "freesteam"; "meos"; "coolprop"; "refprop"; "gerg"].

End wizard.


(** ** equipment/UI_heatExchanger.py: [Chart.refixImage] *)

Module ChartLayout.
Local Open Scope R_scope.

(** What [Chart.refixImage] reads: the class constants [PosLogo] and
    [PosImage] ([None] unless the class sets it), the axes limits, the
    [transData.transform_point] of the axes, and the pixel sizes
    [(height, width)] of the logo and of the equation image. *)
Record Layout : Type := {
  PosLogo : Z * Z;
  PosImage : option (Z * Z);
  xlim : R * R;
  ylim : R * R;
  transform_point : R * R -> R * R;
  logo_size : Z * Z;
  image_size : Z * Z
}.

(** What it writes: [logo.ox, logo.oy] and [image.ox, image.oy]. *)
Record Offsets : Type := {
  logo_ox : R; logo_oy : R;
  image_ox : R; image_oy : R
}.

(** [Chart.refixImage(self)] *)
Definition refixImage (c : Layout) : Offsets :=
  let (xmin, xmax) := xlim c in
  let (ymin, ymax) := ylim c in
  let a := IZR (fst (PosLogo c)) * xmax + (1 - IZR (fst (PosLogo c))) * xmin in
  let b := IZR (snd (PosLogo c)) * ymax + (1 - IZR (snd (PosLogo c))) * ymin in
  let (x, y) := transform_point c (a, b) in
  let (hlogo, wlogo) := logo_size c in
  let (himage, wimage) := image_size c in
  let (x, xi) :=
      if (fst (PosLogo c) =? 1)%Z
      then (x - IZR wlogo, x - IZR wlogo - IZR wimage - 20)
      else (x, x + IZR wlogo + 20) in
  let (y, yi) :=
      if (snd (PosLogo c) =? 1)%Z
      then (y - IZR hlogo, y - IZR himage - 10)
      else (y, y + 10) in
  let (xi, yi) :=
      match PosImage c with
      | Some pos =>
        let a := IZR (fst pos) * xmax + (1 - IZR (fst pos)) * xmin in
        let b := IZR (snd pos) * ymax + (1 - IZR (snd pos)) * ymin in
        let (xi, yi) := transform_point c (a, b) in
        (if (fst pos =? 1)%Z then xi - (IZR wimage + 10) else xi + 10,
         if (snd pos =? 1)%Z then yi - (IZR himage + 10) else yi + 10)
      | None => (xi, yi)
      end in
  {| logo_ox := x; logo_oy := y; image_ox := xi; image_oy := yi |}.

(** A chart 6 units wide drawn at 100 by 400 pixels per unit, with a 98 by
    98 logo and a 60 by 200 equation image. *)
Definition sample_layout (logo : Z * Z) (img : option (Z * Z)) : Layout :=
  {| PosLogo := logo; PosImage := img;
     xlim := (0, 6); ylim := (0, 1);
     transform_point := fun p => (100 * fst p, 400 * snd p);
     logo_size := (98%Z, 98%Z); image_size := (60%Z, 200%Z) |}.

End ChartLayout.


(** ** Notions to state facts about lib/elemental.py *)

Module elemental_notions.
Import Py elemental.

Local Open Scope string_scope.

(** The character [c] occurs in [s]. *)
Fixpoint occurs (c : ascii) (s : string) : bool :=
  match s with
  | EmptyString => false
  | String a s' => (Ascii.eqb a c || occurs c s')%bool
  end.

(** A temperature [_unit] read that Python takes as true: a number other
    than 0. *)
Definition known (t : option float) : Prop :=
  match t with
  | Some f => number f <> 0%R
  | None => False
  end.

Definition kelvin (t : option float) : R :=
  match t with
  | Some f => number f
  | None => 0%R
  end.

Section Rows.

Variable parse_float : string -> option R.
Variable parse_int : string -> option Z.
Variable pyobj : Type.
Variable eval : cell -> result pyobj.

(** Column [i] of a row. *)
Definition cell_at (r : row) (i : nat) : cell := nth i r Null.

(** The columns the constructor hands to [self._unit]. *)
Definition unit_columns : list nat :=
  [8; 9; 10; 16; 17; 18; 19; 20; 28; 29; 30; 31; 32; 33; 34; 35; 36; 37]%nat.

(** A row the constructor reads without raising: forty columns at least,
    [int()] accepts columns 0, 5 and 6, [eval] columns 24 and 25, and
    [_unit] each of its columns. *)
Definition readable (r : row) : Prop :=
  (40 <= List.length r)%nat
  /\ (forall i, In i [0; 5; 6]%nat ->
        exists z, py_int parse_int (cell_at r i) = ok z)
  /\ (forall i, In i [24; 25]%nat -> exists v, eval (cell_at r i) = ok v)
  /\ (forall i, In i unit_columns ->
        exists v, _unit parse_float (cell_at r i) = ok v).

(** The instance holds what the row holds: each attribute is the cell of
    its column, read the way the constructor reads it. *)
Definition read_from (obj : Elemental pyobj) (r : row) : Prop :=
  py_int parse_int (cell_at r 0) = ok (id obj)
  /\ name obj = cell_at r 1
  /\ altname obj = cell_at r 2
  /\ symbol obj = cell_at r 3
  /\ serie obj = cell_at r 4
  /\ py_int parse_int (cell_at r 5) = ok (group obj)
  /\ py_int parse_int (cell_at r 6) = ok (period obj)
  /\ block obj = cell_at r 7
  /\ _unit parse_float (cell_at r 8) = ok (density_Solid obj)
  /\ _unit parse_float (cell_at r 9) = ok (density_Liq obj)
  /\ _unit parse_float (cell_at r 10) = ok (density_Gas obj)
  /\ appearance obj = cell_at r 11
  /\ date obj = cell_at r 12
  /\ country obj = cell_at r 13
  /\ discover obj = cell_at r 14
  /\ etymology obj = cell_at r 15
  /\ _unit parse_float (cell_at r 16) = ok (atomic_mass obj)
  /\ _unit parse_float (cell_at r 17) = ok (atomic_volume obj)
  /\ _unit parse_float (cell_at r 18) = ok (atomic_radius obj)
  /\ _unit parse_float (cell_at r 19) = ok (covalent_radius obj)
  /\ _unit parse_float (cell_at r 20) = ok (vanderWaals_radius obj)
  /\ ionic_radii obj = cell_at r 21
  /\ lattice_type obj = cell_at r 22
  /\ space_group obj = cell_at r 23
  /\ eval (cell_at r 24) = ok (lattice_edges obj)
  /\ eval (cell_at r 25) = ok (lattice_angles obj)
  /\ electron_configuration obj = cell_at r 26
  /\ oxidation obj = cell_at r 27
  /\ _unit parse_float (cell_at r 28) = ok (electronegativity obj)
  /\ _unit parse_float (cell_at r 29) = ok (electron_affinity obj)
  /\ _unit parse_float (cell_at r 30) = ok (first_ionization obj)
  /\ _unit parse_float (cell_at r 31) = ok (Tf obj)
  /\ _unit parse_float (cell_at r 32) = ok (Tb obj)
  /\ phase obj = phase_of (Tf obj) (Tb obj)
  /\ _unit parse_float (cell_at r 33) = ok (Heat_f obj)
  /\ _unit parse_float (cell_at r 34) = ok (Heat_b obj)
  /\ _unit parse_float (cell_at r 35) = ok (Cp obj)
  /\ _unit parse_float (cell_at r 36) = ok (k obj)
  /\ _unit parse_float (cell_at r 37) = ok (T_debye obj)
  /\ color obj = cell_at r 38
  /\ notes obj = cell_at r 39.

End Rows.

(** What the constructor returns for the sample table. *)
Definition sample_Elemental : Elemental cell :=
  {| id := 118; name := Text "Oganesson"; altname := Text "Ununoctium";
     symbol := Text "Og"; serie := Text "Noble gas"; group := 18; period := 7;
     block := Text "P"; density_Solid := None; density_Liq := None;
     density_Gas := Some {| number := 13.65; code := "" |};
     appearance := Null; date := Text "2002"; country := Text "Russia";
     discover := Null; etymology := Null;
     atomic_mass := Some {| number := IZR 294; code := "" |};
     atomic_volume := None; atomic_radius := None;
     covalent_radius := Some {| number := 157; code := "stimated" |};
     vanderWaals_radius := None; ionic_radii := Null; lattice_type := Null;
     space_group := Null; lattice_edges := Text "[]"; lattice_angles := Text "[]";
     electron_configuration := Text "[Rn] 5f14 6d10 7s2 7p6"; oxidation := Null;
     electronegativity := None; electron_affinity := None;
     first_ionization := None; Tf := None; Tb := None; phase := "";
     Heat_f := None; Heat_b := None; Cp := None; k := None; T_debye := None;
     color := Text "Colorless"; notes := Null |}.

End elemental_notions.

(** ** equipment/heatExchanger.py: the counterflow effectiveness *)

Module heatExchanger.
Import Py.

Local Open Scope R_scope.





End heatExchanger.

(** * Facts about the charts *)

Module ChartFacts.
Import Py UI_heatExchanger.

Local Open Scope R_scope.
Local Open Scope string_scope.
Local Open Scope list_scope.
Local Open Scope py_scope.

(** ** Running the monad *)

Lemma exec_bind {A B : Type} (m : M A) (k : A -> M B) (s : Chart) :
  exec (bind m k) s =
  match outcome m s with
  | inr a => exec (k a) (exec m s)
  | inl _ => exec m s
  end.
Proof.
  unfold exec, outcome, bind. destruct (m s) as [s' [e | a]]; reflexivity.
Qed.

Lemma outcome_bind {A B : Type} (m : M A) (k : A -> M B) (s : Chart) :
  outcome (bind m k) s =
  match outcome m s with
  | inr a => outcome (k a) (exec m s)
  | inl e => inl e
  end.
Proof.
  unfold exec, outcome, bind. destruct (m s) as [s' [e | a]]; reflexivity.
Qed.

(** ** Relations every step of a method respects

    A reflexive and transitive relation between the state before and the
    state after is respected by a whole method as soon as each primitive
    step respects it, whether the method returns or raises. *)

Section Respects.

Variable Rel : Chart -> Chart -> Prop.
Hypothesis Rel_refl : forall s, Rel s s.
Hypothesis Rel_trans : forall a b c, Rel a b -> Rel b c -> Rel a c.

Definition respects {A : Type} (m : M A) : Prop :=
  forall s, Rel s (exec m s).

Lemma respects_ret {A : Type} (a : A) : respects (ret a).
Proof. intro s. apply Rel_refl. Qed.

Lemma respects_lift {A : Type} (r : result A) : respects (lift r).
Proof. intro s. apply Rel_refl. Qed.

Lemma respects_get : respects get.
Proof. intro s. apply Rel_refl. Qed.

Lemma respects_bind {A B : Type} (m : M A) (k : A -> M B) :
  respects m -> (forall a, respects (k a)) -> respects (bind m k).
Proof.
  intros Hm Hk s. rewrite exec_bind.
  destruct (outcome m s) as [e | a].
  - apply Hm.
  - eapply Rel_trans; [apply Hm | apply Hk].
Qed.

Lemma respects_for {A : Type} (l : list A) (body : A -> M unit) :
  (forall a, In a l -> respects (body a)) -> respects (for_ l body).
Proof.
  induction l as [| a l IH]; intros H; simpl.
  - apply respects_ret.
  - apply respects_bind.
    + apply H. now left.
    + intros _. apply IH. intros b Hb. apply H. now right.
Qed.

Lemma respects_comprehension {A B : Type} (l : list A) (f : A -> M B) :
  (forall a, In a l -> respects (f a)) -> respects (comprehension l f).
Proof.
  induction l as [| a l IH]; intros H; simpl.
  - apply respects_ret.
  - apply respects_bind.
    + apply H. now left.
    + intros b. apply respects_bind.
      * apply IH. intros c Hc. apply H. now right.
      * intros bs. apply respects_ret.
Qed.

Lemma respects_mixed_kw (flujo : string) : respects (mixed_kw flujo).
Proof.
  unfold mixed_kw. apply respects_bind; [apply respects_get |].
  intros s. apply respects_ret.
Qed.

End Respects.

(** Two such relations: "every line on the canvas satisfies [P]" is kept,
    and "the calls recorded since all satisfy [Q]". *)

Definition keeps_lines (P : Line2D -> Prop) (s s' : Chart) : Prop :=
  Forall P (lines (diagrama s)) -> Forall P (lines (diagrama s')).

Definition calls_since (Q : Call -> Prop) (s s' : Chart) : Prop :=
  exists new, calls s' = calls s ++ new /\ Forall Q new.

Lemma keeps_lines_refl P s : keeps_lines P s s.
Proof. intro H. exact H. Qed.

Lemma keeps_lines_trans P a b c :
  keeps_lines P a b -> keeps_lines P b c -> keeps_lines P a c.
Proof. unfold keeps_lines. auto. Qed.

Lemma calls_since_refl Q s : calls_since Q s s.
Proof. exists []. split; [now rewrite app_nil_r | constructor]. Qed.

Lemma calls_since_trans Q a b c :
  calls_since Q a b -> calls_since Q b c -> calls_since Q a c.
Proof.
  intros [n1 [E1 F1]] [n2 [E2 F2]]. exists (n1 ++ n2). split.
  - rewrite E2, E1, app_assoc. reflexivity.
  - apply Forall_app. split; assumption.
Qed.

Create HintDb chart.

#[local] Hint Resolve keeps_lines_refl keeps_lines_trans
  calls_since_refl calls_since_trans : chart.

(** A step that leaves the canvas (resp. the call record) alone. *)
Lemma modify_keeps_lines P (f : Chart -> Chart) :
  (forall s, lines (diagrama (f s)) = lines (diagrama s)) ->
  respects (keeps_lines P) (modify f).
Proof. intros H s. unfold keeps_lines, exec, modify; simpl. now rewrite H. Qed.

Lemma modify_calls_since Q (f : Chart -> Chart) :
  (forall s, calls (f s) = calls s) ->
  respects (calls_since Q) (modify f).
Proof.
  intros H s. exists []. unfold exec, modify; simpl.
  rewrite H, app_nil_r. split; [reflexivity | constructor].
Qed.

Lemma invoke_keeps_lines P f a b flujo kw :
  respects (keeps_lines P) (invoke f a b flujo kw).
Proof. intros s H. exact H. Qed.

Lemma invoke_calls_since (Q : Call -> Prop) f a b flujo kw :
  Q {| arg1 := a; arg2 := b; arg_flujo := flujo; arg_mixed := kw |} ->
  respects (calls_since Q) (invoke f a b flujo kw).
Proof.
  intros H s. eexists. split; [reflexivity |]. repeat constructor. exact H.
Qed.

Lemma plot_keeps_lines (P : Line2D -> Prop) x y f :
  P {| xdata := x; ydata := y; fmt := f |} ->
  respects (keeps_lines P) (diagrama_plot x y f).
Proof.
  intros H s Hs. unfold exec, diagrama_plot, modify; simpl.
  apply Forall_app. split; [exact Hs | repeat constructor; exact H].
Qed.

(** ** Rewriting a method body step by step *)

Lemma bind_modify {B : Type} (f : Chart -> Chart) (k : unit -> M B) s :
  bind (modify f) k s = k tt (f s).
Proof. reflexivity. Qed.

Lemma bind_lift_ok {A B : Type} (a : A) (k : A -> M B) s :
  bind (lift (ok a)) k s = k a s.
Proof. reflexivity. Qed.

Lemma bind_get {B : Type} (k : Chart -> M B) s : bind get k s = k s s.
Proof. reflexivity. Qed.

Lemma bind_ret {A B : Type} (a : A) (k : A -> M B) s : bind (ret a) k s = k a s.
Proof. reflexivity. Qed.

Lemma bind_assoc {A B C : Type} (m : M A) (k : A -> M B) (h : B -> M C) s :
  bind (bind m k) h s = bind m (fun a => bind (k a) h) s.
Proof. unfold bind. destruct (m s) as [s' [e | a]]; reflexivity. Qed.

Lemma bind_eq {A B : Type} (m : M A) (k : A -> M B) s s' a :
  m s = (s', ok a) -> bind m k s = k a s'.
Proof. intros H. unfold bind. now rewrite H. Qed.

Lemma extend_nil s : extend s [] [] [] = s.
Proof.
  destruct s as [f m [l t] i c]. unfold extend; simpl.
  now rewrite !app_nil_r.
Qed.

Lemma extend_extend s c1 l1 t1 c2 l2 t2 :
  extend (extend s c1 l1 t1) c2 l2 t2 = extend s (c1 ++ c2) (l1 ++ l2) (t1 ++ t2).
Proof. unfold extend; simpl. now rewrite !app_assoc. Qed.

(** A comprehension over a callee that always returns: the calls are
    recorded in order and the values collected. *)
Lemma comprehension_total g b flujo kw (l : list R) s :
  comprehension l (fun a => invoke (total g) a b flujo kw) s =
  (extend s (map (mkcall b flujo kw) l) [] [],
   ok (map (fun a => g a b flujo kw) l)).
Proof.
  revert s. induction l as [| a l IH]; intro s; simpl.
  - unfold ret. now rewrite extend_nil.
  - unfold bind at 1. unfold invoke at 1, total at 1, ok at 1.
    unfold bind at 1. rewrite IH. unfold ret, ok. f_equal.
    destruct s as [f m [ls t] i c]. unfold extend; simpl.
    now rewrite !app_nil_r, <- app_assoc.
Qed.

(** A loop whose body draws one line, writes one annotation and records
    some calls. *)
Lemma for_extend {A : Type} (L : list A) (body : A -> M unit)
      (c : A -> list Call) (l : A -> Line2D) (t : A -> Annotation) :
  (forall a s, body a s = (extend s (c a) [l a] [t a], ok tt)) ->
  forall s, for_ L body s = (extend s (flat_map c L) (map l L) (map t L), ok tt).
Proof.
  intros H. induction L as [| a L IH]; intro s; simpl.
  - unfold ret. now rewrite extend_nil.
  - unfold bind. rewrite H. unfold ok. rewrite IH, extend_extend. reflexivity.
Qed.

Lemma getlast_cons {A : Type} (a : A) (l : list A) (d : A) :
  getlast (a :: l) = ok (last (a :: l) d).
Proof.
  unfold getlast.
  assert (H : a :: l <> []) by discriminate.
  rewrite (app_removelast_last d H) at 1.
  rewrite rev_app_distr. reflexivity.
Qed.

Lemma getitem_nth {A : Type} (l : list A) (i : nat) (d : A) :
  (i < List.length l)%nat -> getitem l i = ok (nth i l d).
Proof.
  intros H. unfold getitem. now rewrite (nth_error_nth' l d H).
Qed.

(** ** The grids *)

(** Evaluating a rational built from literals. *)
Ltac q2r :=
  repeat match goal with
         | |- context [Q2R ?q] =>
           let q' := eval vm_compute in q in
           progress change (Q2R q) with (Q2R q');
           unfold Q2R at 1; cbn [Qnum Qden]
         end.

Lemma TemperatureEfectividad_NTU_0 :
  hd_error TemperatureEfectividad_NTU = Some (Rpower 10 (-1.5)).
Proof.
  unfold TemperatureEfectividad_NTU, logspace, linspace.
  cbn [map seq hd_error]. f_equal. f_equal.
  match goal with
  | |- Q2R ?q = _ => let q' := eval vm_compute in q in change q with q'
  end.
  unfold Q2R. cbn [Qnum Qden]. lra.
Qed.

Lemma TemperatureEfectividad_NTU_length :
  List.length TemperatureEfectividad_NTU = 100%nat.
Proof.
  unfold TemperatureEfectividad_NTU, logspace, linspace.
  now rewrite !length_map, length_seq.
Qed.

Lemma TemperatureEfectividad_NTU_cons :
  exists l, TemperatureEfectividad_NTU = Rpower 10 (-1.5) :: l.
Proof.
  pose proof TemperatureEfectividad_NTU_0 as H.
  destruct TemperatureEfectividad_NTU as [| a l]; [discriminate |].
  injection H as ->. now exists l.
Qed.

(** [10 ** -1.5] squares to [1/1000]. *)
Lemma Rpower_10_m15 : 0.0316 < Rpower 10 (-1.5) < 0.0317.
Proof.
  assert (Hsq : Rpower 10 (-1.5) * Rpower 10 (-1.5) = / 1000).
  { rewrite <- Rpower_plus. replace (-1.5 + -1.5) with (- (3)) by lra.
    rewrite Rpower_Ropp. f_equal.
    replace 3 with (INR 3) by (simpl; lra).
    rewrite Rpower_pow by lra. lra. }
  assert (Hpos : 0 < Rpower 10 (-1.5)) by (unfold Rpower; apply exp_pos).
  split; nra.
Qed.

Lemma Efectividad_NTU_length : List.length Efectividad_NTU = 61%nat.
Proof. unfold Efectividad_NTU, arange. now rewrite !length_map, length_seq. Qed.

Lemma Efectividad_NTU_cons : exists l, Efectividad_NTU = 0 :: l.
Proof.
  unfold Efectividad_NTU.
  assert (E : exists q l, arange 0 6.1 0.1 = q :: l /\ (q == 0)%Q).
  { eexists _, _. split; [vm_compute; reflexivity | reflexivity]. }
  destruct E as [q [l [-> Hq]]]. exists (map Q2R l). cbn [map]. f_equal.
  rewrite (Qeq_eqR _ _ Hq). unfold Q2R; cbn [Qnum Qden]. lra.
Qed.

Lemma Efectividad_NTU_0 : hd_error Efectividad_NTU = Some 0.
Proof. destruct Efectividad_NTU_cons as [l ->]. reflexivity. Qed.

(** [NTU[1:]] of the effectiveness chart is 0.1, 0.2, ..., 6.0. *)
Lemma Efectividad_NTU_tl N :
  In N (tl Efectividad_NTU) -> 0.1 <= N <= 6.
Proof.
  unfold Efectividad_NTU.
  assert (F : forallb (fun q => Qle_bool 0.1 q && Qle_bool q 6)
                      (tl (arange 0 6.1 0.1)) = true) by (vm_compute; reflexivity).
  rewrite forallb_forall in F.
  replace (tl (map Q2R (arange 0 6.1 0.1))) with (map Q2R (tl (arange 0 6.1 0.1)))
    by (destruct (arange 0 6.1 0.1); reflexivity).
  rewrite in_map_iff. intros [q [<- Hq]].
  apply F in Hq. apply andb_prop in Hq. destruct Hq as [H1 H2].
  apply Qle_bool_iff in H1, H2. apply Qle_Rle in H1, H2.
  replace (Q2R 0.1) with 0.1 in H1 by (unfold Q2R; cbn [Qnum Qden]; lra).
  replace (Q2R 6) with 6 in H2 by (unfold Q2R; cbn [Qnum Qden]; lra).
  split; assumption.
Qed.

(** [NTU[1:]] of the temperature-effectiveness chart lies above [NTU[0]]. *)
Lemma TemperatureEfectividad_NTU_tl N :
  In N (tl TemperatureEfectividad_NTU) -> Rpower 10 (-1.5) < N.
Proof.
  unfold TemperatureEfectividad_NTU, logspace.
  assert (F : forallb (fun q => negb (Qle_bool q (-1.5)))
                      (tl (linspace (-1.5) 1 100)) = true) by (vm_compute; reflexivity).
  rewrite forallb_forall in F.
  replace (tl (map (fun y => Rpower 10 (Q2R y)) (linspace (-1.5) 1 100)))
    with (map (fun y => Rpower 10 (Q2R y)) (tl (linspace (-1.5) 1 100)))
    by (destruct (linspace (-1.5) 1 100); reflexivity).
  rewrite in_map_iff. intros [q [<- Hq]].
  apply F in Hq. apply negb_true_iff in Hq.
  assert (Hlt : (-1.5 < q)%Q).
  { apply Qnot_le_lt. intro Hle. apply Qle_bool_iff in Hle. congruence. }
  apply Qlt_Rlt in Hlt.
  replace (Q2R (-1.5)) with (-1.5) in Hlt by (unfold Q2R; cbn [Qnum Qden]; lra).
  apply Rpower_lt; lra.
Qed.

(** ** The sweeps, step by step *)

Ltac preorder :=
  first [ exact (@keeps_lines_refl _) | exact (@keeps_lines_trans _)
        | exact (@calls_since_refl _) | exact (@calls_since_trans _) ].

Ltac respects_step :=
  first
    [ apply respects_ret; preorder
    | apply respects_lift; preorder
    | apply respects_get; preorder
    | apply invoke_keeps_lines
    | apply modify_keeps_lines; reflexivity
    | apply modify_calls_since; reflexivity
    | apply respects_for; [preorder | preorder | intros ? ? ]
    | apply respects_comprehension; [preorder | preorder | intros ? ? ]
    | apply respects_bind; [preorder | | intro ] ].

(** *** TemperatureEfectividad *)

Lemma TemperatureEfectividad_curve_total g flujo kw ri s :
  TemperatureEfectividad_curve (total g) flujo kw ri s =
  (extend s (map (mkcall ri flujo kw) (tl TemperatureEfectividad_NTU))
          [sweep_line TemperatureEfectividad_NTU g flujo kw ri]
          [TemperatureEfectividad_note g flujo kw ri], ok tt).
Proof.
  unfold TemperatureEfectividad_curve, slice_from1.
  erewrite bind_eq by apply comprehension_total.
  destruct TemperatureEfectividad_NTU_cons as [l E].
  unfold TemperatureEfectividad_note, sweep_line. rewrite E. cbn [tl ydata].
  unfold diagrama_plot. rewrite bind_modify.
  rewrite (getlast_cons _ _ 0), bind_lift_ok.
  rewrite (getlast_cons _ _ 0), bind_lift_ok.
  unfold axes2D_annotate, modify. f_equal.
  unfold extend; cbn [flow mixed diagrama image calls lines texts].
  now rewrite !app_nil_r.
Qed.

Lemma TemperatureEfectividad_plot_sweep TE indice text flujo s :
  nth_error TemperatureEfectividad_flujo indice = Some (text, flujo) ->
  TemperatureEfectividad_plot TE indice s =
  bind (for_ TemperatureEfectividad_R
             (TemperatureEfectividad_curve TE flujo (kw_of s flujo)))
       (fun _ =>
          bind get (fun s =>
          if (String.eqb flujo "CrFSMix" && negb (currentIndex (mixed s) =? 0)%Z)%bool
          then image_set_data ("images/equation/" ++ flujo ++ "2.png")%string
          else image_set_data ("images/equation/" ++ flujo ++ ".png")%string))
       (prepared s flujo).
Proof.
  intros H. unfold TemperatureEfectividad_plot.
  unfold axes2D_clear. rewrite bind_modify.
  unfold getitem. rewrite H, bind_lift_ok. cbn [snd].
  unfold mixed_setVisible. rewrite bind_modify.
  unfold mixed_kw. rewrite bind_assoc, bind_get, bind_ret.
  reflexivity.
Qed.

Lemma TemperatureEfectividad_curve_lines TE flujo kw ri :
  respects (keeps_lines (starts_at (Rpower 10 (-1.5)) TemperatureEfectividad_NTU))
           (TemperatureEfectividad_curve TE flujo kw ri).
Proof.
  unfold TemperatureEfectividad_curve.
  repeat respects_step.
  apply plot_keeps_lines. repeat split. apply TemperatureEfectividad_NTU_0.
Qed.

Lemma TemperatureEfectividad_curve_calls TE flujo kw ri :
  In ri TemperatureEfectividad_R ->
  respects (calls_since (fun c => In (arg1 c) (tl TemperatureEfectividad_NTU)
                                  /\ In (arg2 c) TemperatureEfectividad_R
                                  /\ arg_flujo c = flujo /\ arg_mixed c = kw))
           (TemperatureEfectividad_curve TE flujo kw ri).
Proof.
  intros Hri. unfold TemperatureEfectividad_curve.
  repeat respects_step.
  apply invoke_calls_since. cbn [arg1 arg2 arg_flujo arg_mixed]. auto.
Qed.

(** Whatever the callee does, the curves of the temperature-effectiveness
    chart start at [(10 ** -1.5, 0)] and the callee is asked about [NTU[1:]]
    only. *)
Lemma TemperatureEfectividad_plot_any TE indice text flujo s :
  nth_error TemperatureEfectividad_flujo indice = Some (text, flujo) ->
  let s' := exec (TemperatureEfectividad_plot TE indice) s in
  Forall (starts_at (Rpower 10 (-1.5)) TemperatureEfectividad_NTU)
         (lines (diagrama s'))
  /\ calls_since (fun c => In (arg1 c) (tl TemperatureEfectividad_NTU)
                          /\ In (arg2 c) TemperatureEfectividad_R
                          /\ arg_flujo c = flujo
                          /\ arg_mixed c = kw_of s flujo) s s'.
Proof.
  intros H s'. subst s'.
  pose proof (@TemperatureEfectividad_plot_sweep TE _ _ _ s H) as E.
  match type of E with _ = ?m ?s0 => set (m0 := m) in E; set (s1 := s0) in E end.
  replace (exec (TemperatureEfectividad_plot TE indice) s) with (exec m0 s1)
    by (unfold exec; now rewrite E).
  split.
  - assert (R1 : respects (keeps_lines (starts_at (Rpower 10 (-1.5))
                                                  TemperatureEfectividad_NTU)) m0).
    { subst m0. apply respects_bind; [preorder | | intros _].
      - apply respects_for; [preorder | preorder |]. intros ri _.
        apply TemperatureEfectividad_curve_lines.
      - apply respects_bind; [preorder | apply respects_get; preorder |].
        intros s2. destruct (_ && _)%bool; apply modify_keeps_lines; reflexivity. }
    apply (R1 s1). constructor.
  - assert (R2 : respects (calls_since (fun c =>
                   In (arg1 c) (tl TemperatureEfectividad_NTU)
                   /\ In (arg2 c) TemperatureEfectividad_R
                   /\ arg_flujo c = flujo
                   /\ arg_mixed c = kw_of s flujo)) m0).
    { subst m0. apply respects_bind; [preorder | | intros _].
      - apply respects_for; [preorder | preorder |]. intros ri Hri.
        now apply TemperatureEfectividad_curve_calls.
      - apply respects_bind; [preorder | apply respects_get; preorder |].
        intros s2. destruct (_ && _)%bool; apply modify_calls_since; reflexivity. }
    exact (R2 s1).
Qed.

(** With a callee that always returns, the chart holds one curve per [R],
    each with the literal 0 at [NTU[0]]. *)
Lemma TemperatureEfectividad_plot_total g indice text flujo s :
  nth_error TemperatureEfectividad_flujo indice = Some (text, flujo) ->
  let s' := exec (TemperatureEfectividad_plot (total g) indice) s in
  lines (diagrama s') =
    map (sweep_line TemperatureEfectividad_NTU g flujo (kw_of s flujo))
        TemperatureEfectividad_R
  /\ calls s' = calls s ++ sweep_calls TemperatureEfectividad_NTU flujo
                                       (kw_of s flujo) TemperatureEfectividad_R
  /\ outcome (TemperatureEfectividad_plot (total g) indice) s = ok tt.
Proof.
  intros H s'. subst s'. unfold exec, outcome.
  rewrite (@TemperatureEfectividad_plot_sweep (total g) _ _ _ s H).
  erewrite bind_eq
    by (apply (for_extend _ _ _ _ _
                 (TemperatureEfectividad_curve_total g flujo (kw_of s flujo)))).
  rewrite bind_get.
  match goal with |- context [if ?b then _ else _] => destruct b end;
    unfold image_set_data, modify, ok, sweep_calls;
    cbn [fst snd extend prepared lines diagrama calls];
    rewrite ?app_nil_l; auto.
Qed.

(** *** Efectividad *)

Lemma Efectividad_curve_total g flujo kw ci s :
  Efectividad_curve (total g) flujo kw ci s =
  (extend s (map (mkcall ci flujo kw) (tl Efectividad_NTU))
          [sweep_line Efectividad_NTU g flujo kw ci]
          [Efectividad_note g flujo kw ci], ok tt).
Proof.
  unfold Efectividad_curve, slice_from1.
  erewrite bind_eq by apply comprehension_total.
  unfold diagrama_plot. rewrite bind_modify.
  assert (L : List.length (0 :: map (fun N => g N ci flujo kw) (tl Efectividad_NTU))
              = 61%nat).
  { cbn [List.length]. rewrite length_map.
    pose proof Efectividad_NTU_length as HL.
    destruct Efectividad_NTU; [discriminate | cbn in *; lia]. }
  rewrite (getitem_nth Efectividad_NTU 0) by (rewrite Efectividad_NTU_length; lia).
  rewrite bind_lift_ok.
  rewrite (getitem_nth Efectividad_NTU 0) by (rewrite Efectividad_NTU_length; lia).
  rewrite bind_lift_ok.
  rewrite (getitem_nth _ 0) by (rewrite L; lia). rewrite bind_lift_ok.
  rewrite (getitem_nth _ 0) by (rewrite L; lia). rewrite bind_lift_ok.
  rewrite (getitem_nth Efectividad_NTU 0) by (rewrite Efectividad_NTU_length; lia).
  rewrite bind_lift_ok.
  unfold axes2D_annotate, modify. f_equal.
  unfold extend, Efectividad_note, sweep_line;
    cbn [flow mixed diagrama image calls lines texts ydata].
  now rewrite !app_nil_r.
Qed.

Lemma Efectividad_plot_sweep E indice text flujo s :
  nth_error Efectividad_flujo indice = Some (text, flujo) ->
  Efectividad_plot E indice s =
  bind (for_ Efectividad_C (Efectividad_curve E flujo (kw_of s flujo)))
       (fun _ => image_set_data ("images/equation/" ++ flujo ++ ".png")%string)
       (prepared s flujo).
Proof.
  intros H. unfold Efectividad_plot.
  unfold axes2D_clear. rewrite bind_modify.
  unfold getitem. rewrite H, bind_lift_ok. cbn [snd].
  unfold mixed_setVisible. rewrite bind_modify.
  unfold mixed_kw. rewrite bind_assoc, bind_get, bind_ret.
  reflexivity.
Qed.

Lemma Efectividad_curve_lines E flujo kw ci :
  respects (keeps_lines (starts_at 0 Efectividad_NTU))
           (Efectividad_curve E flujo kw ci).
Proof.
  unfold Efectividad_curve.
  repeat respects_step.
  apply plot_keeps_lines. repeat split. apply Efectividad_NTU_0.
Qed.

Lemma Efectividad_curve_calls E flujo kw ci :
  In ci Efectividad_C ->
  respects (calls_since (fun c => In (arg1 c) (tl Efectividad_NTU)
                                  /\ In (arg2 c) Efectividad_C
                                  /\ arg_flujo c = flujo /\ arg_mixed c = kw))
           (Efectividad_curve E flujo kw ci).
Proof.
  intros Hci. unfold Efectividad_curve.
  repeat respects_step.
  apply invoke_calls_since. cbn [arg1 arg2 arg_flujo arg_mixed]. auto.
Qed.

(** Whatever the callee does, the curves of the effectiveness chart start
    at [(0, 0)] and the callee is asked about [NTU[1:]] only. *)
Lemma Efectividad_plot_any E indice text flujo s :
  nth_error Efectividad_flujo indice = Some (text, flujo) ->
  let s' := exec (Efectividad_plot E indice) s in
  Forall (starts_at 0 Efectividad_NTU) (lines (diagrama s'))
  /\ calls_since (fun c => In (arg1 c) (tl Efectividad_NTU)
                          /\ In (arg2 c) Efectividad_C
                          /\ arg_flujo c = flujo
                          /\ arg_mixed c = kw_of s flujo) s s'.
Proof.
  intros H s'. subst s'.
  pose proof (@Efectividad_plot_sweep E _ _ _ s H) as Eq.
  match type of Eq with _ = ?m ?s0 => set (m0 := m) in Eq; set (s1 := s0) in Eq end.
  replace (exec (Efectividad_plot E indice) s) with (exec m0 s1)
    by (unfold exec; now rewrite Eq).
  split.
  - assert (R1 : respects (keeps_lines (starts_at 0 Efectividad_NTU)) m0).
    { subst m0. apply respects_bind; [preorder | | intros _].
      - apply respects_for; [preorder | preorder |]. intros ci _.
        apply Efectividad_curve_lines.
      - apply modify_keeps_lines; reflexivity. }
    apply (R1 s1). constructor.
  - assert (R2 : respects (calls_since (fun c =>
                   In (arg1 c) (tl Efectividad_NTU)
                   /\ In (arg2 c) Efectividad_C
                   /\ arg_flujo c = flujo
                   /\ arg_mixed c = kw_of s flujo)) m0).
    { subst m0. apply respects_bind; [preorder | | intros _].
      - apply respects_for; [preorder | preorder |]. intros ci Hci.
        now apply Efectividad_curve_calls.
      - apply modify_calls_since; reflexivity. }
    exact (R2 s1).
Qed.

(** With a callee that always returns, the chart holds one curve per [C*]
    and every point of [NTU[1:]] was asked for every [C*]. *)
Lemma Efectividad_plot_total g indice text flujo s :
  nth_error Efectividad_flujo indice = Some (text, flujo) ->
  let s' := exec (Efectividad_plot (total g) indice) s in
  lines (diagrama s') =
    map (sweep_line Efectividad_NTU g flujo (kw_of s flujo)) Efectividad_C
  /\ calls s' = calls s ++ sweep_calls Efectividad_NTU flujo
                                       (kw_of s flujo) Efectividad_C
  /\ outcome (Efectividad_plot (total g) indice) s = ok tt.
Proof.
  intros H s'. subst s'. unfold exec, outcome.
  rewrite (@Efectividad_plot_sweep (total g) _ _ _ s H).
  erewrite bind_eq
    by (apply (for_extend _ _ _ _ _
                 (Efectividad_curve_total g flujo (kw_of s flujo)))).
  unfold image_set_data, modify, ok, sweep_calls;
    cbn [fst snd extend prepared lines diagrama calls];
    rewrite ?app_nil_l; auto.
Qed.

(** ** The [mixed] keyword *)

Lemma calls_since_impl (Q Q' : Call -> Prop) s s' :
  (forall c, Q c -> Q' c) -> calls_since Q s s' -> calls_since Q' s s'.
Proof.
  intros H [new [E F]]. exists new. split; [exact E |].
  eapply Forall_impl; [exact H | exact F].
Qed.

Lemma selected_currentText mezclado s :
  selected mezclado s -> In (currentText (mixed s)) mezclado.
Proof.
  intros [Hi [H0 H1]]. unfold currentText.
  destruct (Z.ltb_spec (currentIndex (mixed s)) 0); [lia |].
  rewrite Hi. apply nth_In. lia.
Qed.

Lemma kw_of_contract mezclado s flujo c :
  selected mezclado s ->
  arg_flujo c = flujo -> arg_mixed c = kw_of s flujo ->
  mixed_contract mezclado c.
Proof.
  intros Hs Hf Hm. unfold mixed_contract, kw_of in *. rewrite Hm, Hf.
  destruct (String.eqb_spec flujo "CrFSMix") as [-> | Hne].
  - split; [reflexivity | now apply selected_currentText].
  - exact Hne.
Qed.

Lemma items_fold_addItem (l : list string) (c : QComboBox) :
  items (fold_left addItem l c) = items c ++ l.
Proof.
  revert c. induction l as [| a l IH]; intro c; cbn [fold_left].
  - now rewrite app_nil_r.
  - rewrite IH. cbn [addItem items]. now rewrite <- app_assoc.
Qed.

(** Any entry a user picks, the selectors as the constructor fills them,
    is a selected one. *)
Lemma selected_new flujo mezclado i :
  (0 <= i < Z.of_nat (List.length mezclado))%Z ->
  selected mezclado (select_mixed i (new_Chart flujo mezclado)).
Proof.
  intros Hi. unfold selected, select_mixed, new_Chart;
    cbn [mixed setCurrentIndex items currentIndex].
  rewrite items_fold_addItem. cbn [new_QComboBox items app].
  split; [reflexivity |].
  destruct (Z.leb_spec 0 i); [| lia].
  destruct (Z.ltb_spec i (Z.of_nat (List.length mezclado))); [| lia].
  cbn [andb]. lia.
Qed.

(** C6, as stated, fails: in the temperature-effectiveness dialog, its
    selectors as the constructor fills them, plotting "CrFSMix" (entry 3)
    passes [mixed="1"], which is neither "Cmin" nor "Cmax". *)
Lemma mixed_contract_fails_TemperatureEfectividad :
  let s := new_Chart TemperatureEfectividad_flujo TemperatureEfectividad_mezclado in
  selected TemperatureEfectividad_mezclado s /\
  ~ calls_since (mixed_contract ["Cmin"; "Cmax"])
      s (exec (TemperatureEfectividad_plot zero_callee 3) s).
Proof.
  intros s. split.
  - split; [reflexivity | cbn; lia].
  - intros [new [E F]].
    assert (H3 : nth_error TemperatureEfectividad_flujo 3
                 = Some ("Crossflow, one fluid mixed, other unmixed", "CrFSMix"))
      by reflexivity.
    destruct (@TemperatureEfectividad_plot_total (fun _ _ _ _ => 0) _ _ _ s H3)
      as (_ & Hc & _).
    unfold zero_callee in E. rewrite Hc in E. apply app_inv_head in E. subst new.
    unfold sweep_calls in F.
    pose proof TemperatureEfectividad_NTU_length as HL.
    destruct TemperatureEfectividad_NTU as [| n0 [| n1 l]];
      [discriminate HL | discriminate HL |].
    cbn [flat_map TemperatureEfectividad_R tl map app] in F.
    inversion F as [| c cs Hc0 _].
    unfold mixed_contract, mkcall in Hc0. cbn [arg_mixed arg_flujo kw_of] in Hc0.
    destruct Hc0 as [_ [Hm | [Hm | []]]]; discriminate Hm.
Qed.

(** The current text after a user picks entry [i] of the selector. *)
Lemma currentText_select_mixed mezclado s i m :
  selected mezclado s -> nth_error mezclado i = Some m ->
  currentText (mixed (select_mixed (Z.of_nat i) s)) = m.
Proof.
  intros [Hi _] Hm.
  assert (Hlt : (i < List.length mezclado)%nat)
    by (apply nth_error_Some; congruence).
  unfold select_mixed, currentText, setCurrentIndex;
    cbn [mixed currentIndex items].
  rewrite Hi.
  destruct (Z.leb_spec 0 (Z.of_nat i)); [| lia].
  destruct (Z.ltb_spec (Z.of_nat i) (Z.of_nat (List.length mezclado))); [| lia].
  cbn [andb].
  destruct (Z.ltb_spec (Z.of_nat i) 0); [lia |].
  rewrite Nat2Z.id. now apply nth_error_nth.
Qed.

Lemma sweep_calls_mixed NTU flujo kw bs :
  Forall (fun c => arg_mixed c = kw) (sweep_calls NTU flujo kw bs).
Proof.
  unfold sweep_calls. induction bs as [| b bs IH]; cbn [flat_map].
  - constructor.
  - apply Forall_app. split; [| exact IH].
    apply Forall_forall. intros c Hc. apply in_map_iff in Hc.
    destruct Hc as [a [<- _]]. reflexivity.
Qed.

Lemma sweep_calls_nonempty NTU flujo kw b bs :
  (2 <= List.length NTU)%nat -> sweep_calls NTU flujo kw (b :: bs) <> [].
Proof.
  intros H. destruct NTU as [| n0 [| n1 l]]; cbn [List.length] in H; try lia.
  unfold sweep_calls. cbn [flat_map tl map app]. discriminate.
Qed.

Lemma kw_of_current_mixed s flujo c :
  arg_flujo c = flujo -> arg_mixed c = kw_of s flujo -> current_mixed s flujo c.
Proof.
  intros Hf Hm. unfold current_mixed, kw_of in *. split; [exact Hf |].
  destruct (String.eqb_spec flujo "CrFSMix") as [-> | Hne].
  - split; [intros _; exact Hm | intros H; now contradiction H].
  - split; [intros H; now contradiction Hne | intros _; exact Hm].
Qed.

(** C6, amended: every call a [plot] of either chart makes carries the
    [mixed] keyword exactly when the arrangement plotted is "CrFSMix", and
    then with the current entry of the chart's own selector; the entries are
    "Cmin" and "Cmax" in the effectiveness chart, "1" and "2" in the
    temperature-effectiveness chart, and each of them is passed, in every call
    of a plot of "CrFSMix" (entry 3 of either list), once it is the entry
    picked. *)
Theorem mixed_keyword_by_chart E TE iE iT textE textT flujoE flujoT sE sT :
  nth_error Efectividad_flujo iE = Some (textE, flujoE) ->
  nth_error TemperatureEfectividad_flujo iT = Some (textT, flujoT) ->
  selected Efectividad_mezclado sE ->
  selected TemperatureEfectividad_mezclado sT ->
  Efectividad_mezclado = ["Cmin"; "Cmax"] /\
  TemperatureEfectividad_mezclado = ["1"; "2"] /\
  calls_since (fun c => current_mixed sE flujoE c
                        /\ mixed_contract Efectividad_mezclado c)
              sE (exec (Efectividad_plot E iE) sE) /\
  calls_since (fun c => current_mixed sT flujoT c
                        /\ mixed_contract TemperatureEfectividad_mezclado c)
              sT (exec (TemperatureEfectividad_plot TE iT) sT) /\
  (forall g i m, nth_error Efectividad_mezclado i = Some m ->
     let s := select_mixed (Z.of_nat i) sE in
     exists new,
       calls (exec (Efectividad_plot (total g) 3) s) = calls s ++ new
       /\ new <> [] /\ Forall (fun c => arg_mixed c = Some m) new) /\
  (forall g i m, nth_error TemperatureEfectividad_mezclado i = Some m ->
     let s := select_mixed (Z.of_nat i) sT in
     exists new,
       calls (exec (TemperatureEfectividad_plot (total g) 3) s) = calls s ++ new
       /\ new <> [] /\ Forall (fun c => arg_mixed c = Some m) new).
Proof.
  intros HE HT SE ST.
  split; [reflexivity |]. split; [reflexivity |].
  split; [| split; [| split]].
  - destruct (@Efectividad_plot_any E _ _ _ sE HE) as [_ Hc].
    eapply calls_since_impl; [| exact Hc].
    intros c (_ & _ & Hf & Hm). split.
    + now apply kw_of_current_mixed.
    + now apply (@kw_of_contract _ sE flujoE c SE Hf).
  - destruct (@TemperatureEfectividad_plot_any TE _ _ _ sT HT) as [_ Hc].
    eapply calls_since_impl; [| exact Hc].
    intros c (_ & _ & Hf & Hm). split.
    + now apply kw_of_current_mixed.
    + now apply (@kw_of_contract _ sT flujoT c ST Hf).
  - intros g i m Hm s.
    assert (H3 : nth_error Efectividad_flujo 3
                 = Some ("Crossflow, one fluid mixed, other unmixed", "CrFSMix"))
      by reflexivity.
    destruct (@Efectividad_plot_total g _ _ _ s H3) as (_ & Hc & _).
    eexists. split; [exact Hc |].
    replace (kw_of s "CrFSMix") with (Some m).
    + split; [| apply sweep_calls_mixed].
      apply sweep_calls_nonempty. rewrite Efectividad_NTU_length. lia.
    + unfold kw_of. cbn [String.eqb Ascii.eqb Bool.eqb]. subst s.
      now rewrite (currentText_select_mixed _ SE Hm).
  - intros g i m Hm s.
    assert (H3 : nth_error TemperatureEfectividad_flujo 3
                 = Some ("Crossflow, one fluid mixed, other unmixed", "CrFSMix"))
      by reflexivity.
    destruct (@TemperatureEfectividad_plot_total g _ _ _ s H3) as (_ & Hc & _).
    eexists. split; [exact Hc |].
    replace (kw_of s "CrFSMix") with (Some m).
    + split; [| apply sweep_calls_mixed].
      apply sweep_calls_nonempty. rewrite TemperatureEfectividad_NTU_length. lia.
    + unfold kw_of. cbn [String.eqb Ascii.eqb Bool.eqb]. subst s.
      now rewrite (currentText_select_mixed _ ST Hm).
Qed.

(** The amended C6 on the two dialogs with their selectors as the
    constructors fill them, plotting "CrFSMix": every call carries the first
    entry, "Cmin" in one chart and "1" in the other; after the second entry
    is picked the calls of the effectiveness chart carry "Cmax". *)
Lemma mixed_keyword_by_chart_witness :
  let sE := new_Chart Efectividad_flujo Efectividad_mezclado in
  let sT := new_Chart TemperatureEfectividad_flujo TemperatureEfectividad_mezclado in
  calls_since (fun c => current_mixed sE "CrFSMix" c
                        /\ mixed_contract Efectividad_mezclado c)
              sE (exec (Efectividad_plot zero_callee 3) sE) /\
  calls_since (fun c => current_mixed sT "CrFSMix" c
                        /\ mixed_contract TemperatureEfectividad_mezclado c)
              sT (exec (TemperatureEfectividad_plot zero_callee 3) sT) /\
  exists new,
    calls (exec (Efectividad_plot zero_callee 3) (select_mixed 1 sE))
    = calls (select_mixed 1 sE) ++ new
    /\ new <> [] /\ Forall (fun c => arg_mixed c = Some "Cmax") new.
Proof.
  intros sE sT.
  assert (SE : selected Efectividad_mezclado sE)
    by (split; [reflexivity | cbn; lia]).
  assert (ST : selected TemperatureEfectividad_mezclado sT)
    by (split; [reflexivity | cbn; lia]).
  pose proof (@mixed_keyword_by_chart zero_callee zero_callee 3 3
                _ _ _ _ sE sT eq_refl eq_refl SE ST) as H.
  destruct H as (_ & _ & H1 & H2 & H3 & _).
  split; [exact H1 |]. split; [exact H2 |].
  exact (H3 (fun _ _ _ _ => 0) 1%nat "Cmax" eq_refl).
Defined.

(** ** The first point of the temperature-effectiveness curves *)

(** C9: whatever arrangement is selected and whatever the callee does, every
    curve of the temperature-effectiveness chart starts at
    [(NTU[0], 0)] with [NTU[0] = 10 ** -1.5], about 0.0316, and the callee
    is only asked about [NTU[1:]], all above [NTU[0]]; with a callee
    returning [g] the chart holds, for each [R] of the sweep, the curve
    [0 :: [g N R flujo kw for N in NTU[1:]]], so what [g] would give at
    [NTU[0]] is never drawn. *)
Theorem TemperatureEfectividad_first_point TE g indice text flujo s :
  nth_error TemperatureEfectividad_flujo indice = Some (text, flujo) ->
  hd_error TemperatureEfectividad_NTU = Some (Rpower 10 (-1.5)) /\
  0.0316 < Rpower 10 (-1.5) < 0.0317 /\
  Forall (starts_at (Rpower 10 (-1.5)) TemperatureEfectividad_NTU)
         (lines (diagrama (exec (TemperatureEfectividad_plot TE indice) s))) /\
  calls_since (fun c => In (arg1 c) (tl TemperatureEfectividad_NTU)
                        /\ Rpower 10 (-1.5) < arg1 c
                        /\ In (arg2 c) TemperatureEfectividad_R)
              s (exec (TemperatureEfectividad_plot TE indice) s) /\
  lines (diagrama (exec (TemperatureEfectividad_plot (total g) indice) s)) =
    map (sweep_line TemperatureEfectividad_NTU g flujo (kw_of s flujo))
        TemperatureEfectividad_R.
Proof.
  intros H.
  destruct (@TemperatureEfectividad_plot_any TE _ _ _ s H) as [Hl Hc].
  destruct (@TemperatureEfectividad_plot_total g _ _ _ s H) as [Ht _].
  split; [apply TemperatureEfectividad_NTU_0 |].
  split; [apply Rpower_10_m15 |].
  split; [exact Hl |].
  split; [| exact Ht].
  eapply calls_since_impl; [| exact Hc].
  intros c (H1 & H2 & _). repeat split; auto.
  now apply TemperatureEfectividad_NTU_tl.
Qed.

(** C9 at the dialog with its selectors as the constructor fills them,
    plotting counterflow with a callee that
    returns 1 everywhere: the curves still start at 0. *)
Lemma TemperatureEfectividad_first_point_witness :
  let s := new_Chart TemperatureEfectividad_flujo TemperatureEfectividad_mezclado in
  let one := fun (_ _ : R) (_ : string) (_ : option string) => 1 in
  nth_error TemperatureEfectividad_flujo 0 = Some ("Counterflow", "CF") /\
  Forall (starts_at (Rpower 10 (-1.5)) TemperatureEfectividad_NTU)
         (lines (diagrama (exec (TemperatureEfectividad_plot (total one) 0) s))).
Proof.
  intros s one. split; [reflexivity |].
  exact (proj1 (proj2 (proj2
           (@TemperatureEfectividad_first_point (total one) one 0 _ _ s eq_refl)))).
Defined.

End ChartFacts.

(** * Facts about the element class *)

Module ElementalFacts.
Import Py elemental elemental_notions.

Section Facts.

Variable ELEMENTS : list row.
Variable parse_float : string -> option R.
Variable parse_int : string -> option Z.
Variable pyobj : Type.
Variable eval : cell -> result pyobj.

Lemma clamp_above (n : Z) : (118 < n)%Z -> clamp n = 118%Z.
Proof.
  intros H. unfold clamp. destruct (Z.gtb_spec n 118); [reflexivity | lia].
Qed.

Lemma clamp_118 : clamp 118 = 118%Z.
Proof. reflexivity. Qed.

(** The row fetched for [n] carries [n] in its first column. *)
Lemma fetchone_id (n : Z) (r : row) :
  fetchone ELEMENTS n = Some r -> exists rest, r = Int n :: rest.
Proof.
  unfold fetchone. intros H. apply find_some in H. destruct H as [_ H].
  destruct r as [| [| z | |] rest]; try discriminate.
  cbn in H. apply Z.eqb_eq in H. subst. now exists rest.
Qed.

Lemma build_id (data : option row) (obj : Elemental pyobj) (n : Z) :
  (forall r, data = Some r -> exists rest, r = Int n :: rest) ->
  build parse_float parse_int eval data = ok obj -> id obj = n.
Proof.
  intros Hd H. destruct data as [r |].
  - destruct (Hd r eq_refl) as [rest ->].
    unfold build in H. cbn [column getitem nth_error rbind py_int ok] in H.
    repeat match type of H with
           | rbind ?c _ = _ =>
             destruct c as [e | ?v]; [discriminate H | cbn [rbind] in H]
           end.
    injection H as <-. reflexivity.
  - discriminate H.
Qed.

(** With [id] a key of the table, the query returns the row of that id. *)
Lemma fetchone_key (n : Z) (data : row) :
  In data ELEMENTS -> id_is n data = true ->
  (forall r, In r ELEMENTS -> id_is n r = true -> r = data) ->
  fetchone ELEMENTS n = Some data.
Proof.
  unfold fetchone. induction ELEMENTS as [| a l IH]; intros Hin Hid Hkey.
  - destruct Hin.
  - cbn [find]. destruct (id_is n a) eqn:Ea.
    + f_equal. apply Hkey; [now left | exact Ea].
    + apply IH; [| exact Hid |].
      * destruct Hin as [-> | Hin]; [congruence | exact Hin].
      * intros r Hr. apply Hkey. now right.
Qed.

Lemma column_cell_at (r : row) (i : nat) :
  (i < List.length r)%nat -> column (Some r) i = ok (cell_at r i).
Proof.
  intros H. unfold column, getitem, cell_at.
  destruct (nth_error r i) as [c |] eqn:E.
  - now rewrite (nth_error_nth _ _ Null E).
  - apply nth_error_None in E. lia.
Qed.

(** A readable row reads into an instance that holds it. *)
Lemma build_readable (data : row) :
  readable parse_float parse_int eval data ->
  exists obj, build parse_float parse_int eval (Some data) = ok obj
              /\ read_from parse_float parse_int eval obj data.
Proof.
  intros (Hlen & Hi & He & Hu).
  unfold build.
  rewrite !column_cell_at by lia.
  cbn [rbind ok].
  repeat match goal with
  | |- context [py_int parse_int (cell_at data ?i)] =>
    let z := fresh "z" in let E := fresh "E" in
    destruct (Hi i ltac:(cbn; tauto)) as [z E]; rewrite E; cbn [rbind ok]
  | |- context [eval (cell_at data ?i)] =>
    let z := fresh "v" in let E := fresh "E" in
    destruct (He i ltac:(cbn; tauto)) as [z E]; rewrite E; cbn [rbind ok]
  | |- context [_unit parse_float (cell_at data ?i)] =>
    let z := fresh "u" in let E := fresh "E" in
    destruct (Hu i ltac:(cbn; tauto)) as [z E]; rewrite E; cbn [rbind ok]
  end.
  eexists. split; [reflexivity |].
  unfold read_from. cbn. repeat split; assumption.
Qed.

(** C10: for every [id] above 118 the constructor does exactly what it does
    for 118 (same instance, or same exception); an instance it returns has
    [id = 118] and is built from the row the table holds for 118; and when
    the table holds one row for 118, readable, the constructor does return an
    instance, the same as for 118, with [id = 118] and the cells of that
    row. *)
Theorem Elemental_clamped (n : Z) :
  (118 < n)%Z ->
  __init__ ELEMENTS parse_float parse_int eval n
  = __init__ ELEMENTS parse_float parse_int eval 118
  /\ (forall obj,
      __init__ ELEMENTS parse_float parse_int eval n = ok obj ->
      id obj = 118%Z
      /\ exists data, fetchone ELEMENTS 118 = Some data
                      /\ build parse_float parse_int eval (Some data) = ok obj)
  /\ (forall data,
      In data ELEMENTS -> id_is 118 data = true ->
      (forall r, In r ELEMENTS -> id_is 118 r = true -> r = data) ->
      readable parse_float parse_int eval data ->
      exists obj,
        __init__ ELEMENTS parse_float parse_int eval n = ok obj
        /\ __init__ ELEMENTS parse_float parse_int eval 118 = ok obj
        /\ id obj = 118%Z
        /\ read_from parse_float parse_int eval obj data).
Proof.
  intros H. unfold __init__. rewrite (clamp_above H), clamp_118.
  split; [reflexivity |]. split.
  - intros obj Hobj. split.
    + eapply build_id; [| exact Hobj]. intros r Hr. now apply fetchone_id.
    + destruct (fetchone ELEMENTS 118) as [data |];
        [now exists data | discriminate Hobj].
  - intros data Hin Hid Hkey Hread.
    rewrite (fetchone_key _ Hin Hid Hkey).
    destruct (build_readable Hread) as [obj [Hb Hr]].
    exists obj. split; [exact Hb |]. split; [exact Hb |]. split; [| exact Hr].
    eapply build_id; [| exact Hb]. intros r Hr'. injection Hr' as <-.
    destruct data as [| [| z | |] rest]; try discriminate Hid.
    cbn in Hid. apply Z.eqb_eq in Hid. subst z. now exists rest.
Qed.

End Facts.

(** On the sample table the constructor returns for 200 what it returns
    for 118: element 118, its covalent radius read out of "(157, stimated)". *)
Example Elemental_200_sample :
  exists obj,
    __init__ sample_ELEMENTS sample_parse_float sample_parse_int sample_eval 200
    = ok obj
    /\ id obj = 118%Z
    /\ symbol obj = Text "Og"
    /\ covalent_radius obj = Some {| number := 157; code := "stimated" |}
    /\ phase obj = ""%string.
Proof.
  eexists. split.
  - unfold __init__, build, sample_ELEMENTS, fetchone. cbn [clamp Z.gtb Z.compare
      Pos.compare Pos.compare_cont find id_is sample_row Z.eqb Pos.eqb].
    cbn [column getitem nth_error rbind py_int ok sample_eval].
    unfold _unit. cbn [py_float falsy rbind ok raise last_char split
      Ascii.eqb Bool.eqb String.eqb sample_parse_float number].
    reflexivity.
  - cbn. repeat split.
Qed.

(** The sample row is readable. *)
Lemma sample_row_readable :
  readable sample_parse_float sample_parse_int sample_eval sample_row.
Proof.
  split; [cbn; lia |]. split; [| split].
  - intros i [<- | [<- | [<- | []]]]; eexists; reflexivity.
  - intros i [<- | [<- | []]]; eexists; reflexivity.
  - unfold unit_columns. intros i Hi. cbn [In] in Hi.
    repeat (destruct Hi as [<- | Hi]; [eexists; reflexivity |]). destruct Hi.
Defined.

(** C10 at [id = 200] on the sample table: the constructor returns an
    instance, the one it returns for 118, with [id = 118] and the symbol of
    the table's row for 118. *)
Lemma Elemental_clamped_witness :
  (118 < 200)%Z /\
  exists obj,
    __init__ sample_ELEMENTS sample_parse_float sample_parse_int sample_eval 200
    = ok obj
    /\ __init__ sample_ELEMENTS sample_parse_float sample_parse_int sample_eval 118
       = ok obj
    /\ id obj = 118%Z /\ symbol obj = Text "Og".
Proof.
  split; [lia |].
  destruct (proj2 (proj2 (@Elemental_clamped sample_ELEMENTS sample_parse_float
                            sample_parse_int cell sample_eval 200 eq_refl))
              sample_row (or_introl eq_refl) eq_refl
              (fun r Hin _ => match Hin with
                              | or_introl E => eq_sym E
                              | or_intror F => False_ind _ F
                              end)
              sample_row_readable)
    as (obj & Hn & H118 & Hid & Hr).
  exists obj. split; [exact Hn |]. split; [exact H118 |]. split; [exact Hid |].
  exact (proj1 (proj2 (proj2 (proj2 Hr)))).
Defined.

End ElementalFacts.

(** * More about the charts: the states [plot] ends in *)

Module ChartSweepFacts.
Import Py UI_heatExchanger ChartStates ChartFacts.

Local Open Scope R_scope.
Local Open Scope string_scope.
Local Open Scope list_scope.
Local Open Scope py_scope.

(** A loop whose body draws lines, writes annotations and records calls. *)
Lemma for_extend_lists {A : Type} (L : list A) (body : A -> M unit)
      (c : A -> list Call) (l : A -> list Line2D) (t : A -> list Annotation) :
  (forall a s, body a s = (extend s (c a) (l a) (t a), ok tt)) ->
  forall s, for_ L body s
            = (extend s (flat_map c L) (flat_map l L) (flat_map t L), ok tt).
Proof.
  intros H. induction L as [| a L IH]; intro s; simpl.
  - unfold ret. now rewrite extend_nil.
  - unfold bind. rewrite H. unfold ok. rewrite IH, extend_extend. reflexivity.
Qed.

Lemma flat_map_single {A B : Type} (f : A -> B) (l : list A) :
  flat_map (fun a => [f a]) l = map f l.
Proof. induction l; simpl; congruence. Qed.

Lemma flat_map_nil {A B : Type} (l : list A) :
  flat_map (fun _ : A => @nil B) l = [].
Proof. induction l; simpl; auto. Qed.

(** Efectividad: the whole final state with a callee that returns. *)
Lemma Efectividad_plot_state g indice text flujo s :
  nth_error Efectividad_flujo indice = Some (text, flujo) ->
  Efectividad_plot (total g) indice s =
  (set_image ("images/equation/" ++ flujo ++ ".png")%string
     (extend (prepared s flujo)
             (sweep_calls Efectividad_NTU flujo (kw_of s flujo) Efectividad_C)
             (map (sweep_line Efectividad_NTU g flujo (kw_of s flujo)) Efectividad_C)
             (map (Efectividad_note g flujo (kw_of s flujo)) Efectividad_C)),
   ok tt).
Proof.
  intros H.
  rewrite (@Efectividad_plot_sweep (total g) _ _ _ s H).
  erewrite bind_eq
    by (apply (for_extend _ _ _ _ _
                 (Efectividad_curve_total g flujo (kw_of s flujo)))).
  reflexivity.
Qed.

Lemma TemperatureEfectividad_plot_state g indice text flujo s :
  nth_error TemperatureEfectividad_flujo indice = Some (text, flujo) ->
  TemperatureEfectividad_plot (total g) indice s =
  (set_image
     (if (String.eqb flujo "CrFSMix" && negb (currentIndex (mixed s) =? 0)%Z)%bool
      then ("images/equation/" ++ flujo ++ "2.png")%string
      else ("images/equation/" ++ flujo ++ ".png")%string)
     (extend (prepared s flujo)
             (sweep_calls TemperatureEfectividad_NTU flujo (kw_of s flujo)
                          TemperatureEfectividad_R)
             (map (sweep_line TemperatureEfectividad_NTU g flujo (kw_of s flujo))
                  TemperatureEfectividad_R)
             (map (TemperatureEfectividad_note g flujo (kw_of s flujo))
                  TemperatureEfectividad_R)),
   ok tt).
Proof.
  intros H.
  rewrite (@TemperatureEfectividad_plot_sweep (total g) _ _ _ s H).
  erewrite bind_eq
    by (apply (for_extend _ _ _ _ _
                 (TemperatureEfectividad_curve_total g flujo (kw_of s flujo)))).
  rewrite bind_get.
  cbn [mixed extend prepared setVisible currentIndex].
  destruct (_ && _)%bool; reflexivity.
Qed.

Lemma F_curve_total g flujo kw ri s :
  F_curve (total g) flujo kw ri s =
  (extend s (map (mkcall ri flujo kw) F_P) [plain_line F_P g flujo kw ri] [], ok tt).
Proof.
  unfold F_curve.
  erewrite bind_eq by apply comprehension_total.
  unfold diagrama_plot, modify, plain_line. f_equal.
  unfold extend; cbn [flow mixed diagrama image calls lines texts].
  now rewrite !app_nil_r.
Qed.

Lemma F_plot_state g indice text flujo s :
  nth_error F_flujo indice = Some (text, flujo) ->
  F_plot (total g) indice s =
  (set_image ("images/equation/" ++ flujo ++ ".png")%string
     (extend (cleared s)
             (grid_calls F_P flujo (kw_of s flujo) F_R)
             (map (plain_line F_P g flujo (kw_of s flujo)) F_R)
             []),
   ok tt).
Proof.
  intros H. unfold F_plot.
  unfold axes2D_clear. rewrite bind_modify.
  unfold getitem. rewrite H, bind_lift_ok. cbn [snd].
  unfold mixed_kw. rewrite bind_assoc, bind_get, bind_ret.
  erewrite bind_eq
    by (apply (for_extend_lists _ _ _ _ _ (F_curve_total g flujo _))).
  rewrite flat_map_single, flat_map_nil. reflexivity.
Qed.

Lemma Fi_curve_total g flujo kw ri s :
  Fi_curve (total g) flujo kw ri s =
  (extend s (map (mkcall ri flujo kw) Fi_P) [plain_line Fi_P g flujo kw ri] [], ok tt).
Proof.
  unfold Fi_curve.
  erewrite bind_eq by apply comprehension_total.
  unfold diagrama_plot, modify, plain_line. f_equal.
  unfold extend; cbn [flow mixed diagrama image calls lines texts].
  now rewrite !app_nil_r.
Qed.

Lemma Fi_ray_step ntu s :
  diagrama_plot [0; 1] [0; 1 / ntu] "k" s = (extend s [] [Fi_ray ntu] [], ok tt).
Proof.
  unfold diagrama_plot, modify, Fi_ray, extend. f_equal.
  cbn [flow mixed diagrama image calls lines texts]. now rewrite !app_nil_r.
Qed.

Lemma Fi_plot_state g s :
  Fi_plot (total g) 0 s =
  (set_image "images/equation/1-2TEMAE.png"
     (extend (cleared s)
             (grid_calls Fi_P "1-2TEMAE" None Fi_R)
             (map (plain_line Fi_P g "1-2TEMAE" None) Fi_R ++ map Fi_ray Fi_NTU)
             []),
   ok tt).
Proof.
  unfold Fi_plot.
  unfold axes2D_clear. rewrite bind_modify.
  unfold getitem. cbn [nth_error Fi_flujo]. rewrite bind_lift_ok. cbn [snd].
  unfold mixed_kw. rewrite bind_assoc, bind_get, bind_ret.
  cbn [String.eqb Ascii.eqb Bool.eqb].
  erewrite bind_eq
    by (apply (for_extend_lists _ _ _ _ _ (Fi_curve_total g "1-2TEMAE" None))).
  erewrite bind_eq
    by (apply (for_extend_lists _ _ _ _ _ Fi_ray_step)).
  rewrite extend_extend, !flat_map_single, !flat_map_nil, !app_nil_r.
  reflexivity.
Qed.

(** ** The values on the grids *)
Lemma Q2R_lit (n : Z) (d : positive) (q : Q) (r : R) :
  (q == n # d)%Q -> r = IZR n / IZR (Zpos d) -> Q2R q = r.
Proof. intros Hq ->. rewrite (Qeq_eqR _ _ Hq). reflexivity. Qed.

Lemma nth_map_seq {A : Type} (f : nat -> A) (n i : nat) (d : A) :
  (i < n)%nat -> nth i (map f (seq 0 n)) d = f i.
Proof.
  intros H. transitivity (nth i (map f (seq 0 n)) (f 0%nat)).
  - apply nth_indep. now rewrite length_map, length_seq.
  - rewrite map_nth, seq_nth by exact H. reflexivity.
Qed.

Lemma nth_arange_R (start stop step : Q) (i : nat) :
  (i < Z.to_nat (Qceiling ((stop - start) / step)%Q))%nat ->
  nth i (map Q2R (arange start stop step)) 0
  = Q2R (start + inject_Z (Z.of_nat i) * step)%Q.
Proof.
  intros H. unfold arange. rewrite map_map.
  now rewrite nth_map_seq.
Qed.

Lemma Efectividad_NTU_nth (i : nat) :
  (i < 61)%nat -> nth i Efectividad_NTU 0 = INR i / 10.
Proof.
  intros H. unfold Efectividad_NTU. rewrite nth_arange_R by (vm_compute; lia).
  rewrite Q2R_plus, Q2R_mult.
  replace (Q2R 0) with 0 by (unfold Q2R; cbn [Qnum Qden]; lra).
  replace (Q2R 0.1) with (/ 10) by (unfold Q2R; cbn [Qnum Qden]; lra).
  unfold Q2R, inject_Z; cbn [Qnum Qden]. rewrite <- INR_IZR_INZ. lra.
Qed.

Lemma F_P_nth (i : nat) :
  (i < 101)%nat -> nth i F_P 0 = INR i / 100.
Proof.
  intros H. unfold F_P. rewrite nth_arange_R by (vm_compute; lia).
  rewrite Q2R_plus, Q2R_mult.
  replace (Q2R 0) with 0 by (unfold Q2R; cbn [Qnum Qden]; lra).
  replace (Q2R 0.01) with (/ 100) by (unfold Q2R; cbn [Qnum Qden]; lra).
  unfold Q2R, inject_Z; cbn [Qnum Qden]. rewrite <- INR_IZR_INZ. lra.
Qed.

Lemma F_P_length : List.length F_P = 101%nat.
Proof. unfold F_P, arange. now rewrite !length_map, length_seq. Qed.

Lemma nth_In_R (l : list R) (i : nat) (x : R) :
  (i < List.length l)%nat -> nth i l 0 = x -> In x l.
Proof. intros H <-. now apply nth_In. Qed.

Lemma F_P_ends : In 0 F_P /\ In 1 F_P.
Proof.
  split.
  - apply (@nth_In_R F_P 0); [rewrite F_P_length; lia |].
    rewrite F_P_nth by lia. simpl. lra.
  - apply (@nth_In_R F_P 100); [rewrite F_P_length; lia |].
    rewrite F_P_nth by lia. replace (INR 100) with 100 by (rewrite INR_IZR_INZ; reflexivity). lra.
Qed.

Lemma F_P_range p : In p F_P -> 0 <= p <= 1.
Proof.
  intros H. apply (In_nth _ _ 0) in H. destruct H as [i [Hi <-]].
  rewrite F_P_length in Hi. rewrite F_P_nth by exact Hi.
  assert (0 <= INR i) by apply pos_INR.
  assert (INR i <= INR 100) by (apply le_INR; lia).
  replace (INR 100) with 100 in * by (rewrite INR_IZR_INZ; reflexivity).
  lra.
Qed.

(** X1: whatever the callee does, every curve of the effectiveness chart starts
    at [(0, 0)], and the callee is only asked about NTU between 0.1 and 6.0
    (never about [NTU = 0]), for a [C*] of the sweep and the arrangement
    selected. *)
Theorem Efectividad_plot_origin E indice text flujo s :
  nth_error Efectividad_flujo indice = Some (text, flujo) ->
  Forall (starts_at 0 Efectividad_NTU)
         (lines (diagrama (exec (Efectividad_plot E indice) s))) /\
  calls_since (fun c => 0.1 <= arg1 c <= 6 /\ In (arg2 c) Efectividad_C
                        /\ arg_flujo c = flujo)
              s (exec (Efectividad_plot E indice) s).
Proof.
  intros H. destruct (@Efectividad_plot_any E _ _ _ s H) as [Hl Hc].
  split; [exact Hl |].
  eapply calls_since_impl; [| exact Hc].
  intros c (H1 & H2 & H3 & _). repeat split; auto; now apply Efectividad_NTU_tl.
Qed.

Lemma Efectividad_plot_origin_witness :
  let s := new_Chart Efectividad_flujo Efectividad_mezclado in
  nth_error Efectividad_flujo 5 = Some ("1-2 pass shell and tube exchanger", "1-2TEMAE") /\
  Forall (starts_at 0 Efectividad_NTU)
         (lines (diagrama (exec (Efectividad_plot zero_callee 5) s))).
Proof.
  intros s. split; [reflexivity |].
  exact (proj1 (@Efectividad_plot_origin zero_callee 5 _ _ s eq_refl)).
Defined.

Lemma in_sweep_calls NTU flujo kw bs b N :
  In b bs -> In N (tl NTU) -> In (mkcall b flujo kw N) (sweep_calls NTU flujo kw bs).
Proof.
  intros Hb HN. unfold sweep_calls. apply in_flat_map. exists b. split; [exact Hb |].
  now apply in_map.
Qed.

Lemma length_sweep_calls NTU flujo kw bs :
  List.length (sweep_calls NTU flujo kw bs)
  = (List.length bs * List.length (tl NTU))%nat.
Proof.
  unfold sweep_calls. induction bs as [| b bs IH]; cbn [flat_map List.length].
  - reflexivity.
  - rewrite length_app, length_map, IH. lia.
Qed.

Lemma Efectividad_NTU_tl_length : List.length (tl Efectividad_NTU) = 60%nat.
Proof.
  pose proof Efectividad_NTU_length as H.
  destruct Efectividad_NTU; [discriminate H | cbn in *; lia].
Qed.

(** X2: when no call raises, [Efectividad.plot] returns with six curves and six
    annotations drawn, 360 calls made, one for each [C*] of the sweep ([C* = 1]
    among them) and each point of [NTU[1:]], and the equation image of the
    arrangement shown. *)
Theorem Efectividad_plot_full_sweep g indice text flujo s :
  nth_error Efectividad_flujo indice = Some (text, flujo) ->
  let s' := exec (Efectividad_plot (total g) indice) s in
  outcome (Efectividad_plot (total g) indice) s = ok tt /\
  List.length (lines (diagrama s')) = 6%nat /\
  List.length (texts (diagrama s')) = 6%nat /\
  (exists new, calls s' = calls s ++ new /\ List.length new = 360%nat /\
     forall ci N, In ci Efectividad_C -> In N (tl Efectividad_NTU) ->
                  In (mkcall ci flujo (kw_of s flujo) N) new) /\
  In 1 Efectividad_C /\
  image s' = ("images/equation/" ++ flujo ++ ".png")%string.
Proof.
  intros H s'. subst s'. unfold exec, outcome.
  rewrite (@Efectividad_plot_state g _ _ _ s H). cbn [fst snd].
  split; [reflexivity |].
  cbn [set_image extend prepared diagrama lines texts calls image].
  rewrite !app_nil_l, !length_map.
  split; [reflexivity |]. split; [reflexivity |].
  split; [| split; [unfold Efectividad_C; cbn; tauto | reflexivity]].
  eexists. split; [reflexivity |]. split.
  - rewrite length_sweep_calls, Efectividad_NTU_tl_length. reflexivity.
  - intros ci N Hci HN. now apply in_sweep_calls.
Qed.

Lemma Efectividad_plot_full_sweep_witness :
  let s := new_Chart Efectividad_flujo Efectividad_mezclado in
  nth_error Efectividad_flujo 0 = Some ("Counterflow", "CF") /\
  outcome (Efectividad_plot zero_callee 0) s = ok tt.
Proof.
  intros s. split; [reflexivity |].
  exact (proj1 (@Efectividad_plot_full_sweep (fun _ _ _ _ => 0) 0 _ _ s eq_refl)).
Defined.

(** ** The annotation of each curve *)
Lemma INR_lit_3 : INR 30 / 10 = 3. Proof. rewrite INR_IZR_INZ. cbn. lra. Qed.
Lemma INR_lit_4 : INR 40 / 10 = 4. Proof. rewrite INR_IZR_INZ. cbn. lra. Qed.
Lemma INR_lit_29 : INR 29 / 10 = 2.9. Proof. rewrite INR_IZR_INZ. cbn. lra. Qed.

Lemma sweep_nth g flujo kw ci (i : nat) :
  (0 < i < 61)%nat ->
  nth i (ydata (sweep_line Efectividad_NTU g flujo kw ci)) 0
  = g (nth i Efectividad_NTU 0) ci flujo kw.
Proof.
  intros Hi. cbn [sweep_line ydata].
  destruct i as [| j]; [lia |]. cbn [nth].
  pose proof Efectividad_NTU_tl_length as HL.
  transitivity (nth j (map (fun N => g N ci flujo kw) (tl Efectividad_NTU))
                    ((fun N => g N ci flujo kw) 0)).
  - apply nth_indep. rewrite length_map, HL. lia.
  - rewrite (map_nth (fun N => g N ci flujo kw)).
    destruct Efectividad_NTU; [discriminate HL | reflexivity].
Qed.

Lemma Efectividad_note_label g flujo kw ci :
  Efectividad_note g flujo kw ci = Efectividad_label g flujo kw ci.
Proof.
  unfold Efectividad_note, Efectividad_label.
  rewrite !sweep_nth by lia.
  rewrite (@Efectividad_NTU_nth 30), (@Efectividad_NTU_nth 40) by lia.
  rewrite INR_lit_3, INR_lit_4.
  replace ((4 - 3) / 6) with (1 / 6) by lra.
  unfold Efectividad_angle.
  destruct (Req_dec_T (1 / 6) 0) as [E | _]; [lra | reflexivity].
Qed.

(** X3: the annotation of each effectiveness curve sits at abscissa
    [NTU[29]], the grid point just below 3 (between 2.85 and 2.95), with the
    ordinate computed at [NTU[30] = 3.0], rotated by
    [atan((e(4.0) - e(3.0)) / (1/6))] in degrees: [fraccionx] is always [1/6],
    so the [ZeroDivisionError] fallback ([angle=90]) is never taken. *)
Theorem Efectividad_plot_annotations g indice text flujo s :
  nth_error Efectividad_flujo indice = Some (text, flujo) ->
  texts (diagrama (exec (Efectividad_plot (total g) indice) s))
  = map (Efectividad_label g flujo (kw_of s flujo)) Efectividad_C
  /\ 2.85 < nth 29 Efectividad_NTU 0 < 2.95.
Proof.
  intros H. split.
  - unfold exec.
    rewrite (@Efectividad_plot_state g _ _ _ s H).
    cbn [fst set_image extend prepared diagrama texts]. rewrite app_nil_l.
    apply map_ext. intros ci. apply Efectividad_note_label.
  - rewrite (@Efectividad_NTU_nth 29) by lia. rewrite INR_lit_29. lra.
Qed.

(** X3 on a sample. *)
Lemma Efectividad_plot_annotations_witness :
  let s := new_Chart Efectividad_flujo Efectividad_mezclado in
  nth_error Efectividad_flujo 1 = Some ("Parallelflow", "PF") /\
  texts (diagrama (exec (Efectividad_plot zero_callee 1) s))
  = map (Efectividad_label (fun _ _ _ _ => 0) "PF" None) Efectividad_C.
Proof.
  intros s. split; [reflexivity |].
  exact (proj1 (@Efectividad_plot_annotations (fun _ _ _ _ => 0) 1 _ _ s eq_refl)).
Defined.

(** ** A plot that raises

    For each of the four charts, a [plot] that raises (an index out of
    range, or an exception of the callee) leaves the equation image as it
    was: the image is only replaced after the whole sweep. *)
Lemma same_image_refl s : same_image s s.
Proof. reflexivity. Qed.

Lemma same_image_trans a b c : same_image a b -> same_image b c -> same_image a c.
Proof. unfold same_image. congruence. Qed.

Lemma modify_same_image (f : Chart -> Chart) :
  (forall s, image (f s) = image s) -> respects same_image (modify f).
Proof. intros H s. apply H. Qed.

Lemma invoke_same_image f a b flujo kw : respects same_image (invoke f a b flujo kw).
Proof. intros s. reflexivity. Qed.

Lemma image_on_success_bind {A B : Type} (m : M A) (k : A -> M B) :
  respects same_image m -> (forall a, image_on_success (k a)) ->
  image_on_success (bind m k).
Proof.
  intros Hm Hk s e. rewrite outcome_bind, exec_bind.
  destruct (outcome m s) as [e' | a] eqn:Eo.
  - intros _. apply Hm.
  - intros He. rewrite (Hk a _ _ He). apply Hm.
Qed.

Lemma image_on_success_set path : image_on_success (image_set_data path).
Proof. intros s e H. discriminate H. Qed.

Ltac same_image_step :=
  first
    [ apply respects_ret; exact same_image_refl
    | apply respects_lift; exact same_image_refl
    | apply respects_get; exact same_image_refl
    | apply invoke_same_image
    | apply modify_same_image; reflexivity
    | apply respects_for; [exact same_image_refl | exact same_image_trans | intros ? ? ]
    | apply respects_comprehension;
      [exact same_image_refl | exact same_image_trans | intros ? ? ]
    | apply respects_bind; [exact same_image_trans | | intro ] ].

Lemma Efectividad_curve_same_image E flujo kw ci :
  respects same_image (Efectividad_curve E flujo kw ci).
Proof. unfold Efectividad_curve. repeat same_image_step. Qed.

Lemma TemperatureEfectividad_curve_same_image E flujo kw ri :
  respects same_image (TemperatureEfectividad_curve E flujo kw ri).
Proof. unfold TemperatureEfectividad_curve. repeat same_image_step. Qed.

Lemma F_curve_same_image E flujo kw ri :
  respects same_image (F_curve E flujo kw ri).
Proof. unfold F_curve. repeat same_image_step. Qed.

Lemma Fi_curve_same_image E flujo kw ri :
  respects same_image (Fi_curve E flujo kw ri).
Proof. unfold Fi_curve. repeat same_image_step. Qed.

Ltac loop_same_image lem :=
  apply respects_for; [exact same_image_refl | exact same_image_trans |];
  intros ? _; apply lem.

(** X4: for each of the four charts, a [plot] that raises (an index out of
    range, or an exception of the callee) leaves the equation image as it was:
    the image is only replaced after the whole sweep. *)
Theorem plot_raises_image_kept (c : chart) callee indice s e :
  outcome (plot_of c callee indice) s = inl e ->
  image (exec (plot_of c callee indice) s) = image s.
Proof.
  revert s e. change (image_on_success (plot_of c callee indice)).
  destruct c; cbn [plot_of].
  - unfold Efectividad_plot.
    apply image_on_success_bind; [apply modify_same_image; reflexivity | intros _].
    apply image_on_success_bind; [same_image_step | intros tag].
    apply image_on_success_bind; [apply modify_same_image; reflexivity | intros _].
    apply image_on_success_bind; [unfold mixed_kw; repeat same_image_step | intros kw].
    apply image_on_success_bind;
      [loop_same_image Efectividad_curve_same_image | intros _].
    apply image_on_success_set.
  - unfold TemperatureEfectividad_plot.
    apply image_on_success_bind; [apply modify_same_image; reflexivity | intros _].
    apply image_on_success_bind; [same_image_step | intros tag].
    apply image_on_success_bind; [apply modify_same_image; reflexivity | intros _].
    apply image_on_success_bind; [unfold mixed_kw; repeat same_image_step | intros kw].
    apply image_on_success_bind;
      [loop_same_image TemperatureEfectividad_curve_same_image | intros _].
    apply image_on_success_bind; [same_image_step | intros s2].
    destruct (_ && _)%bool; apply image_on_success_set.
  - unfold F_plot.
    apply image_on_success_bind; [apply modify_same_image; reflexivity | intros _].
    apply image_on_success_bind; [same_image_step | intros tag].
    apply image_on_success_bind; [unfold mixed_kw; repeat same_image_step | intros kw].
    apply image_on_success_bind; [loop_same_image F_curve_same_image | intros _].
    apply image_on_success_set.
  - unfold Fi_plot.
    apply image_on_success_bind; [apply modify_same_image; reflexivity | intros _].
    apply image_on_success_bind; [same_image_step | intros tag].
    apply image_on_success_bind; [unfold mixed_kw; repeat same_image_step | intros kw].
    apply image_on_success_bind; [loop_same_image Fi_curve_same_image | intros _].
    apply image_on_success_bind.
    + apply respects_for; [exact same_image_refl | exact same_image_trans |].
      intros ntu _. apply modify_same_image. reflexivity.
    + intros _. apply image_on_success_set.
Qed.

Lemma plot_raises_image_kept_witness :
  let s := set_image "images/equation/PF.png"
                     (new_Chart Efectividad_flujo Efectividad_mezclado) in
  outcome (plot_of Efectividad failing_callee 0) s = inl ZeroDivisionError /\
  image (exec (plot_of Efectividad failing_callee 0) s) = "images/equation/PF.png".
Proof.
  intros s.
  assert (H : outcome (plot_of Efectividad failing_callee 0) s = inl ZeroDivisionError).
  { cbn [plot_of]. unfold outcome.
    rewrite (@Efectividad_plot_sweep failing_callee 0 _ _ s eq_refl).
    destruct Efectividad_NTU_cons as [l El].
    pose proof Efectividad_NTU_tl_length as HL.
    unfold Efectividad_C, for_, Efectividad_curve, slice_from1.
    destruct (tl Efectividad_NTU) as [| n1 l']; [discriminate HL |].
    reflexivity. }
  split; [exact H |].
  exact (plot_raises_image_kept Efectividad failing_callee 0 s H).
Defined.

(** X5: after a temperature-effectiveness plot that returns, the [mixed]
    selector is visible exactly for "CrFSMix", its entries, its current index
    and the [flow] selector are untouched, and the image shown is "CrFSMix2.png"
    when "CrFSMix" is plotted with an entry other than the first selected, the
    arrangement's own image otherwise. *)
Theorem TemperatureEfectividad_plot_widgets g indice text flujo s :
  nth_error TemperatureEfectividad_flujo indice = Some (text, flujo) ->
  let s' := exec (TemperatureEfectividad_plot (total g) indice) s in
  visible (mixed s') = String.eqb flujo "CrFSMix" /\
  items (mixed s') = items (mixed s) /\
  currentIndex (mixed s') = currentIndex (mixed s) /\
  flow s' = flow s /\
  image s' =
    (if (String.eqb flujo "CrFSMix" && negb (currentIndex (mixed s) =? 0)%Z)%bool
     then "images/equation/CrFSMix2.png"
     else ("images/equation/" ++ flujo ++ ".png")%string).
Proof.
  intros H s'. subst s'. unfold exec.
  rewrite (@TemperatureEfectividad_plot_state g _ _ _ s H).
  cbn [fst set_image extend prepared mixed flow image setVisible visible items
       currentIndex].
  repeat split.
  destruct (String.eqb_spec flujo "CrFSMix") as [-> | _]; cbn [andb]; reflexivity.
Qed.

Lemma TemperatureEfectividad_plot_widgets_witness :
  let s := select_mixed 1 (new_Chart TemperatureEfectividad_flujo
                                     TemperatureEfectividad_mezclado) in
  nth_error TemperatureEfectividad_flujo 3
  = Some ("Crossflow, one fluid mixed, other unmixed", "CrFSMix") /\
  image (exec (TemperatureEfectividad_plot zero_callee 3) s)
  = "images/equation/CrFSMix2.png".
Proof.
  intros s. split; [reflexivity |].
  exact (proj2 (proj2 (proj2 (proj2
    (@TemperatureEfectividad_plot_widgets (fun _ _ _ _ => 0) 3 _ _ s eq_refl))))).
Defined.

(** ** The correction-factor chart

    [F.plot] asks the callee about every [P] of the grid 0, 0.01, ..., 1.00
    (both ends included) for every [R] up to 20, 2323 calls, draws the
    values as they come (no literal first point), writes no annotation and
    leaves the [mixed] selector alone. *)
Lemma in_grid_calls P flujo kw bs b p :
  In b bs -> In p P -> In (mkcall b flujo kw p) (grid_calls P flujo kw bs).
Proof.
  intros Hb Hp. unfold grid_calls. apply in_flat_map. exists b.
  split; [exact Hb | now apply in_map].
Qed.

Lemma length_grid_calls P flujo kw bs :
  List.length (grid_calls P flujo kw bs) = (List.length bs * List.length P)%nat.
Proof.
  unfold grid_calls. induction bs as [| b bs IH]; cbn [flat_map List.length].
  - reflexivity.
  - rewrite length_app, length_map, IH. lia.
Qed.

(** X6: [F.plot] asks the callee about every [P] of the grid 0, 0.01, ..., 1.00
    (both ends included) for every [R] of its list (up to 20), 2323 calls, draws
    the values as they come (no literal first point), writes no annotation and
    leaves the [mixed] selector alone. *)
Theorem F_plot_full_grid g indice text flujo s :
  nth_error F_flujo indice = Some (text, flujo) ->
  let s' := exec (F_plot (total g) indice) s in
  lines (diagrama s') = map (plain_line F_P g flujo (kw_of s flujo)) F_R /\
  texts (diagrama s') = [] /\
  mixed s' = mixed s /\
  (exists new, calls s' = calls s ++ new /\ List.length new = 2323%nat /\
     forall ri p, In ri F_R -> In p F_P ->
                  In (mkcall ri flujo (kw_of s flujo) p) new) /\
  In 0 F_P /\ In 1 F_P /\ In 20 F_R.
Proof.
  intros H s'. subst s'. unfold exec.
  rewrite (@F_plot_state g _ _ _ s H).
  cbn [fst set_image extend cleared diagrama lines texts calls mixed].
  rewrite !app_nil_l.
  split; [reflexivity |]. split; [reflexivity |]. split; [reflexivity |].
  split.
  - eexists. split; [reflexivity |]. split.
    + rewrite length_grid_calls, F_P_length. reflexivity.
    + intros ri p Hr Hp. now apply in_grid_calls.
  - split; [apply F_P_ends |]. split; [apply F_P_ends |].
    unfold F_R. cbn [In]. tauto.
Qed.

Lemma F_plot_full_grid_witness :
  let s := new_Chart F_flujo F_mezclado in
  nth_error F_flujo 3 = Some ("1-2 pass shell and tube exchanger", "1-2TEMAE") /\
  texts (diagrama (exec (F_plot zero_callee 3) s)) = [].
Proof.
  intros s. split; [reflexivity |].
  exact (proj1 (proj2 (@F_plot_full_grid (fun _ _ _ _ => 0) 3 _ _ s eq_refl))).
Defined.

(** ** The psi chart *)
Lemma Fi_P_length : List.length Fi_P = 101%nat.
Proof. unfold Fi_P, arange. now rewrite !length_map, length_seq. Qed.

Lemma Fi_plot_sweep callee s :
  Fi_plot callee 0 s =
  bind (for_ Fi_R (Fi_curve callee "1-2TEMAE" None))
       (fun _ => bind (for_ Fi_NTU (fun ntu => diagrama_plot [0; 1] [0; 1 / ntu] "k"))
                      (fun _ => image_set_data "images/equation/1-2TEMAE.png"))
       (cleared s).
Proof.
  unfold Fi_plot. unfold axes2D_clear. rewrite bind_modify.
  unfold getitem. cbn [nth_error Fi_flujo]. rewrite bind_lift_ok. cbn [snd].
  unfold mixed_kw. rewrite bind_assoc, bind_get, bind_ret.
  reflexivity.
Qed.

(** X9: for each of the four charts, [plot] with an index at or past the end of
    the chart's arrangement list raises [IndexError] after clearing the axes: no
    call is made, no line drawn, nothing else changes. *)
Theorem plot_of_IndexError (c : chart) callee indice s :
  (List.length (flujo_of c) <= indice)%nat ->
  plot_of c callee indice s = (cleared s, raise IndexError).
Proof.
  intros H. apply nth_error_None in H.
  destruct c; cbn [plot_of flujo_of] in *;
    [unfold Efectividad_plot | unfold TemperatureEfectividad_plot
     | unfold F_plot | unfold Fi_plot];
    unfold axes2D_clear; rewrite bind_modify; unfold getitem; rewrite H;
    reflexivity.
Qed.

(** X9 on a sample. *)
Lemma plot_of_IndexError_witness :
  let s := new_Chart Fi_flujo Fi_mezclado in
  (List.length (flujo_of Fi) <= 1)%nat /\
  plot_of Fi zero_callee 1 s = (cleared s, raise IndexError).
Proof.
  intros s.
  assert (H : (List.length (flujo_of Fi) <= 1)%nat) by (cbn; lia).
  split; [exact H |].
  exact (plot_of_IndexError Fi zero_callee s H).
Defined.

Lemma Fi_curve_calls callee ri :
  In ri Fi_R ->
  respects (calls_since (fun c => arg_mixed c = None /\ arg_flujo c = "1-2TEMAE"
                                  /\ In (arg1 c) Fi_P /\ In (arg2 c) Fi_R))
           (Fi_curve callee "1-2TEMAE" None ri).
Proof.
  intros Hri. unfold Fi_curve.
  repeat respects_step.
  apply invoke_calls_since. cbn [arg1 arg2 arg_flujo arg_mixed]. auto.
Qed.

(** X7: whatever the callee does and whatever the index, [Fi.plot] never passes
    the [mixed] keyword: every call it makes is for "1-2TEMAE", at a [P] of its
    grid and an [R] of its list. *)
Theorem Fi_plot_never_mixed callee indice s :
  calls_since (fun c => arg_mixed c = None /\ arg_flujo c = "1-2TEMAE"
                        /\ In (arg1 c) Fi_P /\ In (arg2 c) Fi_R)
              s (exec (Fi_plot callee indice) s).
Proof.
  destruct indice as [| n].
  - unfold exec. rewrite Fi_plot_sweep.
    match goal with
    | |- context [fst (?m ?s0)] => change (fst (m s0)) with (exec m s0); set (m0 := m)
    end.
    assert (R0 : respects (calls_since (fun c =>
                   arg_mixed c = None /\ arg_flujo c = "1-2TEMAE"
                   /\ In (arg1 c) Fi_P /\ In (arg2 c) Fi_R)) m0).
    { subst m0. apply respects_bind; [preorder | | intros _].
      - apply respects_for; [preorder | preorder |]. intros ri Hri.
        now apply Fi_curve_calls.
      - apply respects_bind; [preorder | | intros _].
        + apply respects_for; [preorder | preorder |]. intros ntu _.
          apply modify_calls_since. reflexivity.
        + apply modify_calls_since. reflexivity. }
    exact (R0 (cleared s)).
  - unfold exec. change (Fi_plot callee (S n)) with (plot_of Fi callee (S n)).
    rewrite (plot_of_IndexError Fi callee (indice := S n) s)
      by (cbn; lia).
    exists []. split; [cbn; now rewrite app_nil_r | constructor].
Qed.

(** X8: with a callee that returns, the psi chart holds 34 lines: the 22 curves
    of the [R] sweep over the whole [P] grid, then the 12 rays from [(0, 0)] to
    [(1, 1/ntu)], each ending between 1/3 and 5. *)
Theorem Fi_plot_lines g s :
  lines (diagrama (exec (Fi_plot (total g) 0) s))
  = map (plain_line Fi_P g "1-2TEMAE" None) Fi_R ++ map Fi_ray Fi_NTU
  /\ List.length (lines (diagrama (exec (Fi_plot (total g) 0) s))) = 34%nat
  /\ (forall ln, In ln (map Fi_ray Fi_NTU) ->
        exists y, ydata ln = [0; y] /\ 1 / 3 <= y <= 5).
Proof.
  unfold exec. rewrite Fi_plot_state.
  cbn [fst set_image extend cleared diagrama lines]. rewrite app_nil_l.
  split; [reflexivity |]. split.
  - rewrite length_app, !length_map. reflexivity.
  - intros ln Hln. apply in_map_iff in Hln. destruct Hln as [ntu [<- Hn]].
    exists (1 / ntu). split; [reflexivity |].
    unfold Fi_NTU in Hn. cbn [In] in Hn.
    repeat (destruct Hn as [<- | Hn]; [lra |]). contradiction.
Qed.

End ChartSweepFacts.

(** * More about the element class *)

Module ElementalMoreFacts.
Import Py elemental elemental_notions ElementalFacts.

Local Open Scope list_scope.
Local Open Scope string_scope.

(** ** Strings *)
Lemma split_nonempty (c : ascii) (s : string) : split c s <> [].
Proof.
  induction s as [| a s IH]; cbn [split]; [discriminate |].
  destruct (Ascii.eqb a c); [discriminate |].
  destruct (split c s); [contradiction | discriminate].
Qed.

Lemma split_absent (c : ascii) (s : string) :
  occurs c s = false -> split c s = [s].
Proof.
  induction s as [| a s IH]; cbn [split occurs]; [reflexivity |].
  intros H. apply orb_false_iff in H. destruct H as [H1 H2].
  rewrite H1, (IH H2). reflexivity.
Qed.

Lemma split_at (c : ascii) (pre t : string) :
  occurs c pre = false ->
  split c (pre ++ String c t) = pre :: split c t.
Proof.
  induction pre as [| a pre IH]; cbn [split occurs append].
  - intros _. now rewrite Ascii.eqb_refl.
  - intros H. apply orb_false_iff in H. destruct H as [H1 H2].
    rewrite H1, (IH H2). reflexivity.
Qed.

Lemma last_char_app (s : string) (c : ascii) :
  last_char (s ++ String c "") = Some c.
Proof.
  induction s as [| a s IH]; [reflexivity |].
  cbn [append last_char]. rewrite IH.
  destruct (s ++ String c "") eqn:E; [| reflexivity].
  destruct s; discriminate E.
Qed.

Lemma append_assoc (s t u : string) : (s ++ t) ++ u = s ++ (t ++ u).
Proof. induction s as [| a s IH]; cbn [append]; [reflexivity | now rewrite IH]. Qed.

Lemma occurs_app (c : ascii) (s t : string) :
  occurs c (s ++ t) = (occurs c s || occurs c t)%bool.
Proof.
  induction s as [| a s IH]; [reflexivity |].
  cbn [append occurs]. rewrite IH. now rewrite orb_assoc.
Qed.

Section Facts.
Variable ELEMENTS : list row.
Variable parse_float : string -> option R.
Variable parse_int : string -> option Z.
Variable pyobj : Type.
Variable eval : cell -> result pyobj.


(** X12: [_unit] returns [None] exactly for an empty cell: [None], or the empty
    text. *)
Theorem _unit_None (c : cell) :
  _unit parse_float c = ok None <-> c = Null \/ (c = Text "" /\ parse_float "" = None).
Proof.
  unfold _unit. split.
  - destruct c as [| z | r | s]; cbn [py_float falsy].
    + auto.
    + discriminate.
    + discriminate.
    + destruct (parse_float s) eqn:Ep; [discriminate |].
      destruct (String.eqb_spec s "") as [-> | Hne]; [auto |].
      intros H. exfalso.
      destruct (match last_char s with Some c => Ascii.eqb c ")"%char | None => false end);
        [| discriminate H].
      destruct (split "("%char s) as [| a [| inner l]]; try discriminate H.
      destruct (split ","%char inner) as [| first l']; [discriminate H |].
      cbn [py_float] in H. destruct (parse_float first); discriminate H.
  - intros [-> | [-> Hp]]; cbn [py_float falsy]; [reflexivity |].
    rewrite Hp. reflexivity.
Qed.

(** X13: for a text that is no number, of the form [pre(num,rest)] with no other
    "(" and no "," in [num], [_unit] returns the number [num] coded "stimated". *)
Theorem _unit_estimated (pre num rest : string) (v : R) :
  occurs "("%char pre = false ->
  occurs "("%char num = false -> occurs ","%char num = false ->
  occurs "("%char rest = false ->
  parse_float (pre ++ "(" ++ num ++ "," ++ rest ++ ")") = None ->
  parse_float num = Some v ->
  _unit parse_float (Text (pre ++ "(" ++ num ++ "," ++ rest ++ ")"))
  = ok (Some {| number := v; code := "stimated" |}).
Proof.
  intros Hpre Hnum1 Hnum2 Hrest Hfail Hv.
  unfold _unit. cbn [py_float falsy]. rewrite Hfail.
  set (s := pre ++ "(" ++ num ++ "," ++ rest ++ ")").
  assert (Hne : String.eqb s "" = false).
  { subst s. destruct pre; reflexivity. }
  rewrite Hne.
  assert (Hlast : last_char s = Some ")"%char).
  { subst s.
    replace (pre ++ "(" ++ num ++ "," ++ rest ++ ")")
      with ((pre ++ "(" ++ num ++ "," ++ rest) ++ String ")"%char "").
    - apply last_char_app.
    - rewrite !append_assoc. reflexivity. }
  rewrite Hlast. cbn [Ascii.eqb Bool.eqb].
  subst s. change ("(" ++ num ++ "," ++ rest ++ ")")
    with (String "("%char (num ++ "," ++ rest ++ ")")).
  rewrite split_at by exact Hpre.
  rewrite (@split_absent "("%char (num ++ "," ++ rest ++ ")")).
  - change ("," ++ rest ++ ")") with (String ","%char (rest ++ ")")).
    rewrite split_at by exact Hnum2.
    cbn [py_float]. rewrite Hv. reflexivity.
  - rewrite !occurs_app, Hnum1, Hrest. reflexivity.
Qed.

(** X14: for a non-empty text that is no number and does not end in ")", [_unit]
    raises [UnboundLocalError]: [value] is never bound. *)
Theorem _unit_unbound (s : string) (c : ascii) :
  parse_float (s ++ String c "") = None -> c <> ")"%char ->
  _unit parse_float (Text (s ++ String c "")) = raise UnboundLocalError.
Proof.
  intros Hfail Hc. unfold _unit. cbn [py_float falsy]. rewrite Hfail.
  assert (Hne : String.eqb (s ++ String c "") "" = false) by (destruct s; reflexivity).
  rewrite Hne, last_char_app.
  destruct (Ascii.eqb_spec c ")"%char); [contradiction | reflexivity].
Qed.

(** X15: for a text that is no number and ends in ")" without any "(", [_unit]
    raises [IndexError] ([split("(")[1]]). *)
Theorem _unit_no_paren (s : string) :
  parse_float (s ++ ")") = None -> occurs "("%char s = false ->
  _unit parse_float (Text (s ++ ")")) = raise IndexError.
Proof.
  intros Hfail Hs. unfold _unit. cbn [py_float falsy]. rewrite Hfail.
  assert (Hne : String.eqb (s ++ ")") "" = false) by (destruct s; reflexivity).
  rewrite Hne. change ")" with (String ")"%char "") at 1. rewrite last_char_app.
  cbn [Ascii.eqb Bool.eqb].
  rewrite split_absent; [reflexivity |].
  rewrite occurs_app, Hs. reflexivity.
Qed.
End Facts.

Lemma sample_init :
  __init__ sample_ELEMENTS sample_parse_float sample_parse_int sample_eval 200
  = ok sample_Elemental.
Proof. reflexivity. Qed.

Section InitFacts.
Variable ELEMENTS : list row.
Variable parse_float : string -> option R.
Variable parse_int : string -> option Z.
Variable pyobj : Type.
Variable eval : cell -> result pyobj.

Ltac peel H :=
  repeat match type of H with
         | rbind ?c _ = _ =>
           let E := fresh "E" in
           destruct c as [? | ?v] eqn:E; [discriminate H | cbn [rbind] in H]
         end.

(** What a returned instance says about the row it was built from. *)
Lemma build_row (data : option row) (obj : Elemental pyobj) :
  build parse_float parse_int eval data = ok obj ->
  exists r, data = Some r /\ (40 <= List.length r)%nat
            /\ phase obj = phase_of (Tf obj) (Tb obj)
            /\ (forall c, nth_error r 31 = Some c -> _unit parse_float c = ok (Tf obj))
            /\ (forall c, nth_error r 3 = Some c -> symbol obj = c).
Proof.
  intros H. destruct data as [r |]; [| discriminate H].
  exists r. split; [reflexivity |].
  unfold build in H. peel H.
  injection H as <-. cbn [phase Tf Tb symbol].
  split.
  - match goal with
    | E : column (Some r) 39 = inr _ |- _ =>
      unfold column, getitem in E;
      destruct (nth_error r 39) eqn:En; [| discriminate E]
    end.
    assert (39 < List.length r)%nat by (apply nth_error_Some; congruence). lia.
  - split; [reflexivity |]. split.
    + intros c Hc.
      match goal with
      | E : rbind (column (Some r) 31) _ = inr ?v |- _ =>
        unfold column, getitem in E; rewrite Hc in E; exact E
      end.
    + intros c Hc.
      match goal with
      | E : column (Some r) 3 = inr ?v |- _ =>
        unfold column, getitem in E; rewrite Hc in E; now injection E as <-
      end.
Qed.

(** X16: an instance the constructor returns for [n] has [id = min(n, 118)] and
    was built from a row of the table with that id and at least 40 columns. *)
Theorem Elemental_id_round_trip (n : Z) (obj : Elemental pyobj) :
  __init__ ELEMENTS parse_float parse_int eval n = ok obj ->
  id obj = Z.min n 118
  /\ exists r, In r ELEMENTS /\ id_is (Z.min n 118) r = true
               /\ (40 <= List.length r)%nat.
Proof.
  unfold __init__. intros H.
  assert (Hc : clamp n = Z.min n 118).
  { unfold clamp. destruct (Z.gtb_spec n 118); lia. }
  rewrite Hc in H. split.
  - eapply build_id; [| exact H]. intros r Hr. now apply fetchone_id in Hr.
  - destruct (build_row _ H) as [r [Hr [Hlen _]]].
    exists r. unfold fetchone in Hr. apply find_some in Hr.
    destruct Hr as [Hin Hid]. auto.
Qed.

(** X17: when the table has no row for [min(n, 118)] (the constructor clamps
    from above only, so [n = 0] or a negative [n] are looked up as they are),
    the constructor raises [TypeError]. *)
Theorem Elemental_missing_row (n : Z) :
  (forall r, In r ELEMENTS -> id_is (Z.min n 118) r = false) ->
  __init__ ELEMENTS parse_float parse_int eval n = raise TypeError.
Proof.
  intros H. unfold __init__.
  assert (Hc : clamp n = Z.min n 118).
  { unfold clamp. destruct (Z.gtb_spec n 118); lia. }
  rewrite Hc.
  assert (Hf : fetchone ELEMENTS (Z.min n 118) = None).
  { unfold fetchone. induction ELEMENTS as [| r l IH]; [reflexivity |].
    cbn [find]. rewrite (H r) by now left.
    apply IH. intros r' Hr'. apply H. now right. }
  rewrite Hf. reflexivity.
Qed.

(** X18: the phase of a returned instance: "" unless both [Tf] and [Tb] are
    numbers other than 0; then "Solid" when [Tf > 273.15] (whatever [Tb]), "Gas"
    when [Tf <= 273.15] and [Tb < 273.15], "Liquid" when [Tf <= 273.15 <= Tb]. *)
Theorem Elemental_phase (n : Z) (obj : Elemental pyobj) :
  __init__ ELEMENTS parse_float parse_int eval n = ok obj ->
  (phase obj = "" <-> ~ (known (Tf obj) /\ known (Tb obj))) /\
  (phase obj = "Solid" <->
     known (Tf obj) /\ known (Tb obj) /\ (273.15 < kelvin (Tf obj))%R) /\
  (phase obj = "Gas" <->
     known (Tf obj) /\ known (Tb obj) /\ (kelvin (Tf obj) <= 273.15)%R
     /\ (kelvin (Tb obj) < 273.15)%R) /\
  (phase obj = "Liquid" <->
     known (Tf obj) /\ known (Tb obj) /\ (kelvin (Tf obj) <= 273.15)%R
     /\ (273.15 <= kelvin (Tb obj))%R).
Proof.
  intros H. unfold __init__ in H.
  destruct (build_row _ H) as [r [_ [_ [Hp _]]]].
  rewrite Hp. unfold phase_of, unit_falsy, known, kelvin.
  destruct (Tf obj) as [tf |], (Tb obj) as [tb |]; cbn [orb].
  - destruct (Req_dec_T (number tf) 0) as [E1 | N1]; cbn [orb].
    + repeat split; intros; try discriminate; tauto.
    + destruct (Req_dec_T (number tb) 0) as [E2 | N2].
      * repeat split; intros; try discriminate; tauto.
      * destruct (Rlt_dec 273.15 (number tf)) as [L | L];
          [| destruct (Rlt_dec (number tb) 273.15) as [G | G]];
          repeat split; intros; try discriminate; try tauto; try lra.
  - destruct (Req_dec_T (number tf) 0); cbn [orb];
      repeat split; intros; try discriminate; tauto.
  - repeat split; intros; try discriminate; tauto.
  - repeat split; intros; try discriminate; tauto.
Qed.
End InitFacts.

(** X13 on a sample. *)
Lemma _unit_estimated_witness :
  _unit sample_parse_float (Text "(157, stimated)")
  = ok (Some {| number := 157; code := "stimated" |}).
Proof.
  exact (@_unit_estimated sample_parse_float "" "157" " stimated" 157%R
           eq_refl eq_refl eq_refl eq_refl eq_refl eq_refl).
Defined.

(** X14 on a sample. *)
Lemma _unit_unbound_witness :
  _unit sample_parse_float (Text "n/a") = raise UnboundLocalError.
Proof.
  refine (@_unit_unbound sample_parse_float "n/" "a"%char eq_refl _).
  discriminate.
Defined.

(** X15 on a sample. *)
Lemma _unit_no_paren_witness :
  _unit sample_parse_float (Text "about 3)") = raise IndexError.
Proof.
  exact (@_unit_no_paren sample_parse_float "about 3" eq_refl eq_refl).
Defined.

(** X16 on a sample. *)
Lemma Elemental_id_round_trip_witness :
  __init__ sample_ELEMENTS sample_parse_float sample_parse_int sample_eval 200
  = ok sample_Elemental /\ id sample_Elemental = Z.min 200 118.
Proof.
  split; [exact sample_init |].
  exact (proj1 (@Elemental_id_round_trip sample_ELEMENTS sample_parse_float
                  sample_parse_int cell sample_eval 200 sample_Elemental sample_init)).
Defined.

(** X17 on a sample. *)
Lemma Elemental_missing_row_witness :
  __init__ sample_ELEMENTS sample_parse_float sample_parse_int sample_eval 0
  = raise TypeError.
Proof.
  apply Elemental_missing_row.
  intros r [<- | []]. reflexivity.
Defined.

(** X18 on a sample. *)
Lemma Elemental_phase_witness :
  phase sample_Elemental = "" <->
  ~ (known (Tf sample_Elemental) /\ known (Tb sample_Elemental)).
Proof.
  exact (proj1 (@Elemental_phase sample_ELEMENTS sample_parse_float
                  sample_parse_int cell sample_eval 200 sample_Elemental sample_init)).
Defined.

End ElementalMoreFacts.

(** * Facts about the wizard's [auto] *)

Module WizardFacts.
Import wizard.
Local Open Scope list_scope.
Local Open Scope string_scope.

Lemma lookup_assign {V : Set} (k k' : string) (v : V) (l : list (string * V)) :
  lookup k (assign k' v l) = if String.eqb k' k then Some v else lookup k l.
Proof.
  induction l as [| [a w] l IH]; cbn [assign lookup].
  - reflexivity.
  - destruct (String.eqb_spec a k') as [-> | Hne]; cbn [lookup].
    + destruct (String.eqb k' k); reflexivity.
    + rewrite IH. destruct (String.eqb_spec a k) as [-> | Hak]; [| reflexivity].
      destruct (String.eqb_spec k' k) as [-> | _]; [contradiction | reflexivity].
Qed.

Lemma keys_assign {V : Set} (k : string) (v : V) (l : list (string * V)) :
  lookup k l <> None -> map fst (assign k v l) = map fst l.
Proof.
  induction l as [| [a w] l IH]; cbn [assign lookup map fst].
  - intros H. contradiction.
  - destruct (String.eqb_spec a k) as [-> | Hne]; cbn [map fst].
    + reflexivity.
    + intros H. now rewrite IH.
Qed.

(** What [set_True] stores, and what it leaves. *)
Lemma stored_set_True config section name config' :
  set_True config section name = inr config' ->
  map fst config' = map fst config /\
  forall sec key,
    stored config' sec key =
    if (String.eqb section sec && String.eqb (optionxform name) key)%bool
    then Some "True" else stored config sec key.
Proof.
  unfold set_True. destruct (lookup section config) as [opts |] eqn:E; [| discriminate].
  intros H. injection H as <-. split.
  - apply keys_assign. congruence.
  - intros sec key. unfold stored. rewrite lookup_assign.
    destruct (String.eqb_spec section sec) as [<- | Hne]; cbn [andb].
    + rewrite lookup_assign, E. reflexivity.
    + reflexivity.
Qed.

Lemma set_True_has_section config section name :
  has_section config section = true ->
  exists config', set_True config section name = inr config'.
Proof.
  unfold has_section, set_True. destruct (lookup section config); [| discriminate].
  intros _. eexists. reflexivity.
Qed.

(** Two configurations with the same section names have the same sections. *)
Lemma lookup_same_keys (l1 l2 : ConfigParser) (k : string) :
  map fst l1 = map fst l2 -> (lookup k l1 = None <-> lookup k l2 = None).
Proof.
  revert l2. induction l1 as [| [a v] l1 IH]; intros [| [a2 v2] l2] Hm; cbn in *;
    try discriminate; [tauto |].
  injection Hm as -> Hm. destruct (String.eqb a2 k); [split; discriminate |].
  now apply IH.
Qed.

(** [config.set] on a configuration with the section returns one that still
    has it. *)
Lemma set_True_keeps_section (b : bool) (name : string) (c : ConfigParser) :
  has_section c "Thermo" = true ->
  exists c', (if b then set_True c "Thermo" name else inr c) = inr c'
             /\ has_section c' "Thermo" = true.
Proof.
  intros Hc0. destruct b; [| now exists c].
  destruct (set_True_has_section c "Thermo" name Hc0) as [c' E].
  exists c'. split; [exact E |].
  destruct (stored_set_True _ _ _ E) as [K _].
  unfold has_section in *.
  destruct (lookup "Thermo" c') eqn:E'; [reflexivity |].
  apply (lookup_same_keys _ _ _ K) in E'. now rewrite E' in Hc0.
Qed.

Section Auto.
Variable default_config : ConfigParser.
Variable id_GERG refProp_all id_mEoS coolProp_all : list Z.
Variable environ : string -> option string.

Lemma availability_forallb (components : list Z) :
  availability id_GERG refProp_all components
  = (forallb (contains id_GERG) components,
     forallb (contains refProp_all) components).
Proof.
  unfold availability.
  assert (G : forall l g r,
             fold_left
               (fun (flags : bool * bool) (id : Z) =>
                  (if negb (contains id_GERG id) then false else fst flags,
                   if negb (contains refProp_all id) then false else snd flags))
               l (g, r)
             = (g && forallb (contains id_GERG) l,
                r && forallb (contains refProp_all) l)%bool).
  { induction l as [| a l IH]; intros g r; cbn [fold_left forallb fst snd].
    - now rewrite !andb_true_r.
    - rewrite IH.
      destruct (contains id_GERG a), (contains refProp_all a), g, r; reflexivity. }
  now rewrite G.
Qed.

Lemma set_all_app section l1 l2 config :
  set_all section (l1 ++ l2) config
  = rbind (set_all section l1 config) (set_all section l2).
Proof.
  revert config. induction l1 as [| n l1 IH]; intro config; cbn [set_all app rbind].
  - reflexivity.
  - destruct (set_True config section n) as [e | c]; cbn [rbind]; [reflexivity | apply IH].
Qed.

Lemma set_all_step section (b : bool) name config :
  set_all section (if b then [name] else []) config
  = if b then set_True config section name else inr config.
Proof.
  destruct b; cbn [set_all]; [| reflexivity].
  destruct (set_True config section name); reflexivity.
Qed.

(** A run of [auto] that returns has set exactly the chosen options, in
    order. *)
Lemma auto_set_all tmin tmax pmin pmax components config :
  auto default_config id_GERG refProp_all id_mEoS coolProp_all environ
       tmin tmax pmin pmax components = inr config ->
  set_all "Thermo"
          (chosen id_GERG refProp_all id_mEoS coolProp_all environ components)
          default_config = inr config.
Proof.
  unfold auto, chosen. rewrite availability_forallb.
  rewrite set_all_app.
  intros H.
  (* iapws and freesteam *)
  match type of H with
  | rbind ?blk _ = _ => destruct blk as [e | c1] eqn:E1; [discriminate H |]
  end.
  cbn [rbind] in H.
  assert (A1 : set_all "Thermo"
                 (if single (Z.eqb 62) components
                  then "iapws" :: (if env_is_True environ "freesteam"
                                   then ["freesteam"] else [])
                  else []) default_config = inr c1).
  { destruct (single (Z.eqb 62) components); [| exact E1].
    cbn [set_all].
    destruct (set_True default_config "Thermo" "iapws") as [e | c0];
      [discriminate E1 |].
    cbn [rbind] in *. unfold environ_get, env_is_True in *.
    destruct (environ "freesteam") as [v |]; [| discriminate E1].
    cbn [rbind] in E1. destruct (String.eqb v "True"); cbn [set_all].
    - destruct (set_True c0 "Thermo" "freesteam"); [discriminate E1 | exact E1].
    - exact E1. }
  rewrite A1. cbn [rbind]. clear A1 E1.
  (* MEoS *)
  rewrite set_all_app, set_all_step.
  match type of H with
  | rbind ?blk _ = _ => destruct blk as [e | c2]; [discriminate H |]
  end.
  cbn [rbind] in *.
  (* coolprop *)
  unfold environ_get, env_is_True in *.
  destruct (environ "CoolProp") as [cp |]; [| discriminate H].
  cbn [rbind] in H. rewrite set_all_app, set_all_step.
  match type of H with
  | rbind ?blk _ = _ => destruct blk as [e | c3]; [discriminate H |]
  end.
  cbn [rbind] in *.
  (* refprop *)
  destruct (environ "refprop") as [rp |]; [| discriminate H].
  cbn [rbind] in H. rewrite set_all_app, set_all_step.
  match type of H with
  | rbind ?blk _ = _ => destruct blk as [e | c4]; [discriminate H |]
  end.
  cbn [rbind] in *.
  (* GERG *)
  rewrite set_all_step.
  match type of H with
  | rbind ?blk _ = _ => destruct blk as [e | c5]; [discriminate H |]
  end.
  cbn [rbind] in *. exact H.
Qed.

(** What a sequence of [set_True] stores. *)
Lemma stored_set_all section names config config' :
  set_all section names config = inr config' ->
  map fst config' = map fst config /\
  forall sec key,
    stored config' sec key =
    if (String.eqb section sec
        && existsb (String.eqb key) (map optionxform names))%bool
    then Some "True" else stored config sec key.
Proof.
  revert config. induction names as [| n names IH]; intros config H; cbn [set_all] in H.
  - injection H as <-. split; [reflexivity |]. intros sec key.
    cbn [map existsb]. now rewrite andb_false_r.
  - destruct (set_True config section n) as [e | c] eqn:E; [discriminate H |].
    cbn [rbind] in H. destruct (IH _ H) as [K S].
    destruct (stored_set_True _ _ _ E) as [K0 S0].
    split; [congruence |].
    intros sec key. rewrite S, S0. cbn [map existsb].
    rewrite (String.eqb_sym (optionxform n)).
    destruct (String.eqb section sec); cbn [andb]; [| reflexivity].
    destruct (existsb _ _); [now rewrite orb_true_r |].
    rewrite orb_false_r. reflexivity.
Qed.



Lemma contains_In (l : list Z) (id : Z) : contains l id = true <-> In id l.
Proof.
  unfold contains. rewrite existsb_exists. split.
  - intros [x [Hx E]]. apply Z.eqb_eq in E. now subst.
  - intros H. exists id. split; [exact H | apply Z.eqb_refl].
Qed.

Lemma forallb_contains (l components : list Z) :
  forallb (contains l) components = true
  <-> forall id, In id components -> In id l.
Proof.
  rewrite forallb_forall. split; intros H id Hid.
  - apply contains_In. now apply H.
  - apply contains_In. now apply H.
Qed.

Lemma chosen_keys components key :
  In key (map optionxform (chosen id_GERG refProp_all id_mEoS coolProp_all environ components)) -> In key auto_keys.
Proof.
  unfold chosen, auto_keys.
  destruct (single (Z.eqb 62) components), (env_is_True environ "freesteam"),
    (single (contains id_mEoS) components),
    (env_is_True environ "CoolProp" && single (contains coolProp_all) components)%bool,
    (env_is_True environ "refprop" && forallb (contains refProp_all) components)%bool,
    (forallb (contains id_GERG) components);
    cbn; tauto.
Qed.

Lemma gerg_chosen components :
  existsb (String.eqb "gerg") (map optionxform (chosen id_GERG refProp_all id_mEoS coolProp_all environ components))
  = forallb (contains id_GERG) components.
Proof.
  unfold chosen.
  destruct (single (Z.eqb 62) components), (env_is_True environ "freesteam"),
    (single (contains id_mEoS) components),
    (env_is_True environ "CoolProp" && single (contains coolProp_all) components)%bool,
    (env_is_True environ "refprop" && forallb (contains refProp_all) components)%bool,
    (forallb (contains id_GERG) components);
    reflexivity.
Qed.

Lemma iapws_chosen components :
  existsb (String.eqb "iapws") (map optionxform (chosen id_GERG refProp_all id_mEoS coolProp_all environ components))
  = single (Z.eqb 62) components.
Proof.
  unfold chosen.
  destruct (single (Z.eqb 62) components), (env_is_True environ "freesteam"),
    (single (contains id_mEoS) components),
    (env_is_True environ "CoolProp" && single (contains coolProp_all) components)%bool,
    (env_is_True environ "refprop" && forallb (contains refProp_all) components)%bool,
    (forallb (contains id_GERG) components);
    reflexivity.
Qed.

Lemma single_62 components : single (Z.eqb 62) components = true <-> components = [62%Z].
Proof.
  unfold single. destruct components as [| a [| b l]]; split; try discriminate.
  - intros H. apply Z.eqb_eq in H. now subst.
  - intros H. injection H as ->. reflexivity.
Qed.

(** X19: a configuration [auto] returns has the sections of the default one, and
    every stored option is as in the default one or is one of iapws, freesteam,
    meos, coolprop, refprop, gerg of section [Thermo] with value "True": [auto]
    never removes an option, never switches one off and never touches another
    section. *)
Theorem auto_frame tmin tmax pmin pmax components config :
  auto default_config id_GERG refProp_all id_mEoS coolProp_all environ tmin tmax pmin pmax components = inr config ->
  map fst config = map fst default_config /\
  forall section key,
    stored config section key = stored default_config section key
    \/ (section = "Thermo" /\ In key auto_keys
        /\ stored config section key = Some "True").
Proof.
  intros H. apply auto_set_all in H.
  destruct (stored_set_all _ _ _ H) as [K S]. split; [exact K |].
  intros section key. rewrite S.
  destruct (String.eqb_spec "Thermo" section) as [<- | Hne]; cbn [andb]; [| now left].
  destruct (existsb _ _) eqn:E; [| now left].
  right. split; [reflexivity |]. split; [| reflexivity].
  apply existsb_exists in E. destruct E as [k [Hk Ek]].
  apply String.eqb_eq in Ek. subst k. now apply chosen_keys in Hk.
Qed.

(** X20: in a configuration [auto] returns, [gerg] of [Thermo] is "True" when
    every component is in [gerg.id_GERG] (so also for an empty component list),
    and is as in the default configuration when some component is not. *)
Theorem auto_GERG tmin tmax pmin pmax components config :
  auto default_config id_GERG refProp_all id_mEoS coolProp_all environ tmin tmax pmin pmax components = inr config ->
  ((forall id, In id components -> In id id_GERG) ->
   stored config "Thermo" "gerg" = Some "True") /\
  ((exists id, In id components /\ ~ In id id_GERG) ->
   stored config "Thermo" "gerg" = stored default_config "Thermo" "gerg").
Proof.
  intros H. apply auto_set_all in H.
  destruct (stored_set_all _ _ _ H) as [_ S].
  rewrite (S "Thermo" "gerg"). cbn [String.eqb Ascii.eqb Bool.eqb andb].
  rewrite gerg_chosen. split.
  - intros Hall. apply forallb_contains in Hall. now rewrite Hall.
  - intros [id [Hin Hnot]].
    destruct (forallb (contains id_GERG) components) eqn:E; [| reflexivity].
    exfalso. apply Hnot. rewrite forallb_contains in E. now apply E.
Qed.

(** X21: when the default configuration does not already have it on, [auto]
    turns [iapws] on exactly for the component list [[62]]. *)
Theorem auto_iapws tmin tmax pmin pmax components config :
  auto default_config id_GERG refProp_all id_mEoS coolProp_all environ tmin tmax pmin pmax components = inr config ->
  stored default_config "Thermo" "iapws" <> Some "True" ->
  (stored config "Thermo" "iapws" = Some "True" <-> components = [62%Z]).
Proof.
  intros H Hd. apply auto_set_all in H.
  destruct (stored_set_all _ _ _ H) as [_ S].
  rewrite (S "Thermo" "iapws"). cbn [String.eqb Ascii.eqb Bool.eqb andb].
  rewrite iapws_chosen.
  rewrite <- single_62.
  destruct (single (Z.eqb 62) components); split; auto; try discriminate;
    try contradiction.
Qed.

(** X22: [auto] returns only if [os.environ] holds both "CoolProp" and "refprop"
    (whatever the components), "freesteam" too for the component list [[62]],
    and only if the default configuration has a [Thermo] section or nothing is
    to be turned on. *)
Theorem auto_needs_environ tmin tmax pmin pmax components config :
  auto default_config id_GERG refProp_all id_mEoS coolProp_all environ tmin tmax pmin pmax components = inr config ->
  environ "CoolProp" <> None /\ environ "refprop" <> None /\
  (components = [62%Z] -> environ "freesteam" <> None) /\
  (chosen id_GERG refProp_all id_mEoS coolProp_all environ components <> [] -> has_section default_config "Thermo" = true).
Proof.
  intros H. pose proof (auto_set_all _ _ _ _ _ H) as HS.
  unfold auto in H. rewrite availability_forallb in H.
  match type of H with
  | rbind ?blk _ = _ => destruct blk as [e | c1] eqn:E1; [discriminate H |]
  end.
  cbn [rbind] in H.
  match type of H with
  | rbind ?blk _ = _ => destruct blk as [e | c2]; [discriminate H |]
  end.
  cbn [rbind] in H. unfold environ_get in *.
  destruct (environ "CoolProp") as [cp |]; [| discriminate H].
  cbn [rbind] in H.
  match type of H with
  | rbind ?blk _ = _ => destruct blk as [e | c3]; [discriminate H |]
  end.
  cbn [rbind] in H.
  destruct (environ "refprop") as [rp |]; [| discriminate H].
  split; [discriminate |]. split; [discriminate |]. split.
  - intros ->. cbn [single Z.eqb Pos.eqb] in E1.
    destruct (set_True default_config "Thermo" "iapws"); [discriminate E1 |].
    cbn [rbind] in E1. destruct (environ "freesteam"); [discriminate | discriminate E1].
  - intros Hne. destruct (chosen id_GERG refProp_all id_mEoS coolProp_all environ components) as [| n l]; [contradiction |].
    cbn [set_all] in HS. unfold set_True, has_section in *.
    destruct (lookup "Thermo" default_config); [reflexivity | discriminate HS].
Qed.

(** X23: when the default configuration has a [Thermo] section and [os.environ]
    holds "CoolProp", "refprop" and "freesteam", [auto] returns a configuration
    for every component list. *)
Theorem auto_returns tmin tmax pmin pmax components :
  has_section default_config "Thermo" = true ->
  environ "CoolProp" <> None -> environ "refprop" <> None ->
  environ "freesteam" <> None ->
  exists config, auto default_config id_GERG refProp_all id_mEoS coolProp_all environ tmin tmax pmin pmax components = inr config.
Proof.
  intros HT Hc Hr Hf.
  assert (Step : forall (b : bool) name c,
             has_section c "Thermo" = true ->
             exists c', (if b then set_True c "Thermo" name else inr c) = inr c'
                        /\ has_section c' "Thermo" = true).
  { intros b name c Hc0. destruct b.
    - destruct (set_True_has_section c "Thermo" name Hc0) as [c' E].
      exists c'. split; [exact E |].
      destruct (stored_set_True _ _ _ E) as [K _].
      unfold has_section in *.
      assert (L : forall (l1 l2 : ConfigParser) k,
                 map fst l1 = map fst l2 ->
                 (lookup k l1 = None <-> lookup k l2 = None)).
      { induction l1 as [| [a v] l1 IH]; intros [| [a2 v2] l2] k Hm; cbn in *;
          try discriminate; [tauto |].
        injection Hm as -> Hm. destruct (String.eqb a2 k); [split; discriminate |].
        now apply IH. }
      destruct (lookup "Thermo" c') eqn:E'; [reflexivity |].
      apply (L _ _ _ K) in E'. now rewrite E' in Hc0.
    - exists c. auto. }
  unfold auto. rewrite availability_forallb. unfold environ_get.
  destruct (environ "CoolProp") as [cp |]; [| contradiction].
  destruct (environ "refprop") as [rp |]; [| contradiction].
  destruct (environ "freesteam") as [fs |]; [| contradiction].
  assert (A : exists c1,
             (if single (Z.eqb 62) components
              then c <-- set_True default_config "Thermo" "iapws" ;;;
                   freesteam <-- inr fs ;;;
                   (if String.eqb freesteam "True"
                    then set_True c "Thermo" "freesteam" else inr c)
              else inr default_config) = inr c1
             /\ has_section c1 "Thermo" = true).
  { destruct (single (Z.eqb 62) components); [| eauto].
    destruct (Step true "iapws" _ HT) as [c0 [E0 H0]]. rewrite E0. cbn [rbind].
    apply Step. exact H0. }
  destruct A as [c1 [E1 H1]]. rewrite E1. cbn [rbind].
  destruct (Step (single (contains id_mEoS) components) "MEoS" _ H1) as [c2 [E2 H2]].
  rewrite E2. cbn [rbind].
  destruct (Step (String.eqb cp "True" && single (contains coolProp_all) components)%bool
                 "coolprop" _ H2) as [c3 [E3 H3]].
  rewrite E3. cbn [rbind].
  destruct (Step (String.eqb rp "True" && forallb (contains refProp_all) components)%bool
                 "refprop" _ H3) as [c4 [E4 H4]].
  rewrite E4. cbn [rbind].
  destruct (Step (forallb (contains id_GERG) components) "GERG" _ H4) as [c5 [E5 H5]].
  rewrite E5. cbn [rbind]. eauto.
Qed.

(** X24: when the default configuration has a [Thermo] section, [auto] raises
    nothing but [KeyError], on the first variable missing from [os.environ]
    in the order it reads them: "freesteam" (read only for the component list
    [[62]]), then "CoolProp", then "refprop"; with none of them missing it
    returns a configuration. *)
Theorem auto_raises tmin tmax pmin pmax components :
  has_section default_config "Thermo" = true ->
  let r := auto default_config id_GERG refProp_all id_mEoS coolProp_all environ
                tmin tmax pmin pmax components in
  (components = [62%Z] /\ environ "freesteam" = None
   /\ r = inl (KeyError "freesteam"))
  \/ ((components = [62%Z] -> environ "freesteam" <> None)
      /\ ((environ "CoolProp" = None /\ r = inl (KeyError "CoolProp"))
          \/ (environ "CoolProp" <> None /\ environ "refprop" = None
              /\ r = inl (KeyError "refprop"))
          \/ (environ "CoolProp" <> None /\ environ "refprop" <> None
              /\ exists config, r = inr config))).
Proof.
  intros HT r. subst r. unfold auto. rewrite availability_forallb.
  unfold environ_get.
  assert (A : (components = [62%Z] /\ environ "freesteam" = None /\
               (if single (Z.eqb 62) components
                then c <-- set_True default_config "Thermo" "iapws" ;;;
                     freesteam <-- match environ "freesteam" with
                                   | Some v => inr v
                                   | None => inl (KeyError "freesteam")
                                   end ;;;
                     (if String.eqb freesteam "True"
                      then set_True c "Thermo" "freesteam" else inr c)
                else inr default_config) = inl (KeyError "freesteam"))
              \/ ((components = [62%Z] -> environ "freesteam" <> None) /\
                  exists c1,
                    (if single (Z.eqb 62) components
                     then c <-- set_True default_config "Thermo" "iapws" ;;;
                          freesteam <-- match environ "freesteam" with
                                        | Some v => inr v
                                        | None => inl (KeyError "freesteam")
                                        end ;;;
                          (if String.eqb freesteam "True"
                           then set_True c "Thermo" "freesteam" else inr c)
                     else inr default_config) = inr c1
                    /\ has_section c1 "Thermo" = true)).
  { destruct (single (Z.eqb 62) components) eqn:E62.
    - apply single_62 in E62.
      destruct (@set_True_keeps_section true "iapws" _ HT) as [c0 [E0 H0]].
      rewrite E0. cbn [rbind].
      destruct (environ "freesteam") as [fs |].
      + right. split; [discriminate |]. cbn [rbind].
        now apply set_True_keeps_section.
      + left. auto.
    - right. split; [| eauto].
      intros Hc. apply single_62 in Hc. congruence. }
  destruct A as [(Hc & Hf & E1) | (Hf & c1 & E1 & H1)].
  - left. rewrite E1. auto.
  - right. split; [exact Hf |]. rewrite E1. cbn [rbind].
    destruct (@set_True_keeps_section (single (contains id_mEoS) components)
                                      "MEoS" _ H1) as [c2 [E2 H2]].
    rewrite E2. cbn [rbind].
    destruct (environ "CoolProp") as [cp |]; [| left; auto].
    right. cbn [rbind].
    destruct (@set_True_keeps_section
                (String.eqb cp "True" && single (contains coolProp_all) components)%bool
                "coolprop" _ H2) as [c3 [E3 H3]].
    rewrite E3. cbn [rbind].
    destruct (environ "refprop") as [rp |];
      [| left; split; [discriminate | auto]].
    right. split; [discriminate |]. split; [discriminate |]. cbn [rbind].
    destruct (@set_True_keeps_section
                (String.eqb rp "True" && forallb (contains refProp_all) components)%bool
                "refprop" _ H3) as [c4 [E4 H4]].
    rewrite E4. cbn [rbind].
    destruct (@set_True_keeps_section (forallb (contains id_GERG) components)
                                      "GERG" _ H4) as [c5 [E5 H5]].
    rewrite E5. cbn [rbind]. eauto.
Qed.

(** X25: when the default configuration has no [Thermo] section, [auto]
    raises [NoSectionError] for the component list [[62]] and for a single
    component of [mEoS.id_mEoS], whatever [os.environ] holds: [config.set]
    runs before any variable is read. *)
Theorem auto_no_section tmin tmax pmin pmax components :
  has_section default_config "Thermo" = false ->
  components = [62%Z] \/ single (contains id_mEoS) components = true ->
  auto default_config id_GERG refProp_all id_mEoS coolProp_all environ
       tmin tmax pmin pmax components = inl (NoSectionError "Thermo").
Proof.
  intros HT Hc. unfold auto. rewrite availability_forallb.
  assert (S : forall name, set_True default_config "Thermo" name
                           = inl (NoSectionError "Thermo")).
  { intros name. unfold set_True, has_section in *.
    destruct (lookup "Thermo" default_config); [discriminate HT | reflexivity]. }
  destruct (single (Z.eqb 62) components) eqn:E62.
  - rewrite S. reflexivity.
  - destruct Hc as [Hc | Hc].
    + apply single_62 in Hc. congruence.
    + cbn [rbind]. rewrite Hc, S. reflexivity.
Qed.

End Auto.
Lemma sample_auto_62 : sample_auto [62%Z] = inr sample_config.
Proof. reflexivity. Qed.

(** X19 on a sample. *)
Lemma auto_frame_witness :
  sample_auto [62%Z] = inr sample_config /\
  map fst sample_config = map fst sample_default.
Proof.
  split; [exact sample_auto_62 |].
  exact (proj1 (auto_frame _ _ _ _ _ _ _ _ _ _ _ sample_auto_62)).
Defined.

(** X20 on a sample. *)
Lemma auto_GERG_witness :
  stored sample_config "Thermo" "gerg" = Some "True".
Proof.
  apply (proj1 (auto_GERG _ _ _ _ _ _ _ _ _ _ _ sample_auto_62)).
  intros id [<- | []]. cbn. tauto.
Defined.

(** X21 on a sample. *)
Lemma auto_iapws_witness :
  stored sample_config "Thermo" "iapws" = Some "True" <-> [62%Z] = [62%Z].
Proof.
  apply (auto_iapws _ _ _ _ _ _ _ _ _ _ _ sample_auto_62).
  discriminate.
Defined.

(** X22 on a sample. *)
Lemma auto_needs_environ_witness :
  sample_environ "CoolProp" <> None /\ sample_environ "refprop" <> None.
Proof.
  pose proof (auto_needs_environ _ _ _ _ _ _ _ _ _ _ _ sample_auto_62) as H.
  exact (conj (proj1 H) (proj1 (proj2 H))).
Defined.

(** X23 on a sample. *)
Lemma auto_returns_witness :
  exists config, sample_auto [] = inr config.
Proof.
  apply auto_returns; [reflexivity | discriminate | discriminate | discriminate].
Defined.

(** X24 on a sample: no components, an environment without "CoolProp". *)
Lemma auto_raises_witness :
  has_section sample_default "Thermo" = true /\
  auto sample_default sample_ids sample_ids sample_ids sample_ids bare_environ
       None None None None [] = inl (KeyError "CoolProp").
Proof.
  split; [reflexivity |].
  destruct (@auto_raises sample_default sample_ids sample_ids sample_ids sample_ids
              bare_environ None None None None [] eq_refl)
    as [(Hc & _) | (_ & [(_ & E) | [(Hc & _) | (Hc & _)]])].
  - discriminate Hc.
  - exact E.
  - now contradiction Hc.
  - now contradiction Hc.
Defined.

(** X25 on a sample: water alone, a default configuration without [Thermo]
    and an empty environment. *)
Lemma auto_no_section_witness :
  auto [("Transport", [])] sample_ids sample_ids sample_ids sample_ids
       (fun _ => None) None None None None [62%Z] = inl (NoSectionError "Thermo").
Proof.
  exact (@auto_no_section [("Transport", [])] sample_ids sample_ids sample_ids
           sample_ids (fun _ => None) None None None None [62%Z]
           eq_refl (or_introl eq_refl)).
Defined.

End WizardFacts.

(** * Facts about the layout of a chart *)

Module ChartLayoutFacts.
Import ChartLayout.
Local Open Scope R_scope.

(** X10: in a chart without [PosImage], [refixImage] puts the equation image
    beside the logo with 20 pixels between them: on its left when the logo hangs
    from the right edge ([PosLogo[0] == 1]), on its right otherwise, so the two
    never overlap. *)
Theorem refixImage_beside_logo (c : Layout) :
  PosImage c = None ->
  (0 <= snd (logo_size c))%Z -> (0 <= snd (image_size c))%Z ->
  let o := refixImage c in
  let wlogo := IZR (snd (logo_size c)) in
  let wimage := IZR (snd (image_size c)) in
  (fst (PosLogo c) = 1%Z -> image_ox o + wimage + 20 = logo_ox o) /\
  (fst (PosLogo c) <> 1%Z -> logo_ox o + wlogo + 20 = image_ox o) /\
  (image_ox o + wimage < logo_ox o \/ logo_ox o + wlogo < image_ox o).
Proof.
  intros HP Hl Hi o wlogo wimage. subst o wlogo wimage.
  unfold refixImage. rewrite HP.
  destruct (xlim c) as [xmin xmax], (ylim c) as [ymin ymax].
  destruct (transform_point c _) as [x y].
  destruct (logo_size c) as [hlogo wlogo], (image_size c) as [himage wimage].
  cbn [fst snd] in *.
  apply IZR_le in Hl, Hi.
  destruct (Z.eqb_spec (fst (PosLogo c)) 1) as [E | N];
    destruct (snd (PosLogo c) =? 1)%Z; cbn [logo_ox image_ox];
    (split; [intros; try lra; try contradiction | split; [intros; try lra; try contradiction |]]);
    lra.
Qed.

(** X11: in a chart with [PosImage] set (also to [(0, 0)], which Python takes as
    true), [refixImage] places the equation image 10 pixels inside the axes
    corner [PosImage] names, whatever the logo's size and place. *)
Theorem refixImage_PosImage (c : Layout) (pos : Z * Z) :
  PosImage c = Some pos ->
  (fst pos = 0%Z \/ fst pos = 1%Z) -> (snd pos = 0%Z \/ snd pos = 1%Z) ->
  let o := refixImage c in
  let corner := (if (fst pos =? 1)%Z then snd (xlim c) else fst (xlim c),
                 if (snd pos =? 1)%Z then snd (ylim c) else fst (ylim c)) in
  let (x, y) := transform_point c corner in
  image_ox o = (if (fst pos =? 1)%Z then x - IZR (snd (image_size c)) - 10 else x + 10) /\
  image_oy o = (if (snd pos =? 1)%Z then y - IZR (fst (image_size c)) - 10 else y + 10).
Proof.
  intros HP H0 H1 o corner. subst o corner.
  unfold refixImage. rewrite HP.
  destruct (xlim c) as [xmin xmax], (ylim c) as [ymin ymax].
  destruct (logo_size c) as [hlogo wlogo], (image_size c) as [himage wimage].
  destruct pos as [p0 p1]. cbn [fst snd] in *.
  destruct (transform_point c
              (IZR (fst (PosLogo c)) * xmax + (1 - IZR (fst (PosLogo c))) * xmin,
               IZR (snd (PosLogo c)) * ymax + (1 - IZR (snd (PosLogo c))) * ymin))
    as [x0 y0].
  assert (Ea : IZR p0 * xmax + (1 - IZR p0) * xmin = if (p0 =? 1)%Z then xmax else xmin).
  { destruct H0 as [-> | ->]; cbn; lra. }
  assert (Eb : IZR p1 * ymax + (1 - IZR p1) * ymin = if (p1 =? 1)%Z then ymax else ymin).
  { destruct H1 as [-> | ->]; cbn; lra. }
  rewrite Ea, Eb.
  destruct (transform_point c _) as [x y].
  destruct (fst (PosLogo c) =? 1)%Z, (snd (PosLogo c) =? 1)%Z; cbn [image_ox image_oy];
    destruct (p0 =? 1)%Z, (p1 =? 1)%Z; split; lra.
Qed.
(** X10 on a sample. *)
Lemma refixImage_beside_logo_witness :
  let o := refixImage (sample_layout (1%Z, 1%Z) None) in
  image_ox o + 200 + 20 = logo_ox o.
Proof.
  intros o.
  exact (proj1 (@refixImage_beside_logo (sample_layout (1%Z, 1%Z) None)
                  eq_refl ltac:(cbn; lia) ltac:(cbn; lia)) eq_refl).
Defined.

(** X11 on a sample. *)
Lemma refixImage_PosImage_witness :
  let o := refixImage (sample_layout (1%Z, 1%Z) (Some (0%Z, 0%Z))) in
  image_ox o = 100 * 0 + 10 /\ image_oy o = 400 * 0 + 10.
Proof.
  intros o.
  exact (@refixImage_PosImage (sample_layout (1%Z, 1%Z) (Some (0%Z, 0%Z)))
           (0%Z, 0%Z) eq_refl (or_introl eq_refl) (or_introl eq_refl)).
Defined.

End ChartLayoutFacts.

(** * Facts about the counterflow effectiveness *)

Module EffectivenessFacts.
Import Py heatExchanger.

Local Open Scope R_scope.














End EffectivenessFacts.
